(** * ros2_ouster: the lifecycle callbacks of [OusterDriver]

    A shallow embedding of [src/ros2_ouster/src/ouster_driver.cpp].  The
    driver is a lifecycle node: a constructor that declares parameters, the
    transition callbacks [onConfigure], [onActivate], [onDeactivate],
    [onCleanup], [onShutdown], [onError], the timer callback [processData],
    the helper [broadcastStaticTransforms] and the two service handlers
    [resetService] and [getMetadata].

    The C++ member functions mutate the node object, may throw, may call
    [exit] and may dereference a smart pointer that holds nothing.  They are
    embedded as computations [M A], a state monad over the record [Driver]
    whose result says which of these four endings occurred; the state at the
    ending is always kept, so that what a callback did before it threw can be
    stated. *)

From Stdlib Require Import ZArith Ascii String List Lia.
From stdpp Require Import base option gmap strings.

Open Scope Z_scope.
Open Scope string_scope.

(** ** Values the node framework exchanges with the driver *)

(** [rclcpp::ParameterValue], restricted to the types this driver uses. *)
Inductive ParameterValue : Type :=
| PNotSet
| PString (s : string)
| PInteger (i : Z).

Inductive Exception : Type :=
| ParameterNotDeclaredException (name : string)
| ParameterAlreadyDeclaredException (name : string)
| ParameterTypeException (expected : string)
| ParameterValueMissing (name : string)
| ConnectionError.

Inductive Severity : Type := INFO | FATAL.

(** [ros2_ouster::Configuration], filled field by field in [onConfigure]
    and [resetService]. *)
Record Configuration : Type := {
  lidar_ip : string;
  computer_ip : string;
  imu_port : Z;
  lidar_port : Z;
  lidar_mode : string
}.

(** Modelled from the spec: the declaration of [ros2_ouster::Metadata] is in
    a header that is not part of the sources.  The spec describes it as the
    two rigid transforms and the lidar mode; a transform is carried as its
    list of coefficients, on which the driver never computes. *)
Definition Transform : Type := list Z.

Record Metadata : Type := {
  lidar_to_sensor_transform : Transform;
  imu_to_sensor_transform : Transform;
  metadata_lidar_mode : string
}.

Definition default_metadata : Metadata :=
  {| lidar_to_sensor_transform := [];
     imu_to_sensor_transform := [];
     metadata_lidar_mode := "" |}.

(** [geometry_msgs::msg::TransformStamped]. *)
Record TransformStamped : Type := {
  transform : Transform;
  frame_id : string;
  child_frame_id : string;
  stamp : Z
}.

(** Modelled from the spec: [toMsg] for transforms is declared in a header
    outside the sources.  It is called as
    [toMsg(transform, frame, child_frame, time)] and the message keeps the
    four arguments. *)
Definition toMsg (t : Transform) (frame child_frame : string) (time : Z)
  : TransformStamped :=
  {| transform := t; frame_id := frame; child_frame_id := child_frame;
     stamp := time |}.

(** [ouster_msgs::msg::Metadata], the payload of the get_metadata response.
    Modelled from the spec: the conversion [toMsg(Metadata)] is outside the
    sources; the message is a snapshot copy of the metadata. *)
Record MetadataMsg : Type := { snapshot : Metadata }.

Definition toMsg_metadata (m : Metadata) : MetadataMsg := {| snapshot := m |}.

Record GetMetadataResponse : Type := { metadata : MetadataMsg }.

(** [std_srvs::srv::Empty::Response] carries nothing. *)
Inductive EmptyResponse : Type := Empty.

(** ** Objects the driver owns *)

(** A lifecycle publisher: its topic and whether it is armed. *)
Record Publisher : Type := {
  topic : string;
  enabled : bool
}.

Inductive Handler : Type := HandleReset | HandleGetMetadata.

Record Service : Type := {
  service_name : string;
  handler : Handler
}.

(** Modelled from the spec: [SensorInterface] (the PacketSource with its
    MetadataStore) lives in headers outside the sources.  The handle records
    the configuration of the last completed handshake, if any, and the
    metadata that handshake produced. *)
Record SensorInterface : Type := {
  connection : option Configuration;
  sensor_metadata : Metadata
}.

Definition OS1Sensor : SensorInterface :=
  {| connection := None; sensor_metadata := default_metadata |}.

Inductive StaticTransformBroadcaster : Type := TransformBroadcaster.

Inductive Callback : Type := CallProcessData.

Record Timer : Type := {
  period_ns : Z;
  callback : Callback
}.

Inductive LifecycleState : Type :=
| Unconfigured | Inactive | Active | Finalized | ErrorProcessing.

#[global] Instance LifecycleState_eq_dec : EqDecision LifecycleState.
Proof. solve_decision. Defined.

(** What the driver does to the outside world, in order. *)
Inductive Event : Type :=
| Log (severity : Severity) (message : string)
| Handshake (config : Configuration)
| SendTransform (transforms : list TransformStamped)
| Publish (on_topic : string).

(** ** The node object

    The first group of fields belongs to the framework's node (the
    parameter overrides it was started with, the parameters declared so
    far, the lifecycle state, the clock); the second group are the data
    members of [OusterDriver]; [events] is the trace of outside effects. *)
Record Driver : Type := mkDriver {
  overrides : gmap string ParameterValue;
  parameters : gmap string ParameterValue;
  lifecycle : LifecycleState;
  clock : Z;
  _range_im_pub : option Publisher;
  _intensity_im_pub : option Publisher;
  _noise_im_pub : option Publisher;
  _imu_pub : option Publisher;
  _pc_pub : option Publisher;
  _reset_srv : option Service;
  _metadata_srv : option Service;
  _sensor : option SensorInterface;
  _tf_b : option StaticTransformBroadcaster;
  _process_timer : option Timer;
  events : list Event
}.

Definition set_parameters (v : gmap string ParameterValue) (d : Driver) : Driver :=
  mkDriver (overrides d) v (lifecycle d) (clock d)
    (_range_im_pub d) (_intensity_im_pub d) (_noise_im_pub d) (_imu_pub d)
    (_pc_pub d) (_reset_srv d) (_metadata_srv d) (_sensor d) (_tf_b d)
    (_process_timer d) (events d).

Definition set_lifecycle (v : LifecycleState) (d : Driver) : Driver :=
  mkDriver (overrides d) (parameters d) v (clock d)
    (_range_im_pub d) (_intensity_im_pub d) (_noise_im_pub d) (_imu_pub d)
    (_pc_pub d) (_reset_srv d) (_metadata_srv d) (_sensor d) (_tf_b d)
    (_process_timer d) (events d).

Definition set_range_im_pub (v : option Publisher) (d : Driver) : Driver :=
  mkDriver (overrides d) (parameters d) (lifecycle d) (clock d)
    v (_intensity_im_pub d) (_noise_im_pub d) (_imu_pub d)
    (_pc_pub d) (_reset_srv d) (_metadata_srv d) (_sensor d) (_tf_b d)
    (_process_timer d) (events d).

Definition set_intensity_im_pub (v : option Publisher) (d : Driver) : Driver :=
  mkDriver (overrides d) (parameters d) (lifecycle d) (clock d)
    (_range_im_pub d) v (_noise_im_pub d) (_imu_pub d)
    (_pc_pub d) (_reset_srv d) (_metadata_srv d) (_sensor d) (_tf_b d)
    (_process_timer d) (events d).

Definition set_noise_im_pub (v : option Publisher) (d : Driver) : Driver :=
  mkDriver (overrides d) (parameters d) (lifecycle d) (clock d)
    (_range_im_pub d) (_intensity_im_pub d) v (_imu_pub d)
    (_pc_pub d) (_reset_srv d) (_metadata_srv d) (_sensor d) (_tf_b d)
    (_process_timer d) (events d).

Definition set_imu_pub (v : option Publisher) (d : Driver) : Driver :=
  mkDriver (overrides d) (parameters d) (lifecycle d) (clock d)
    (_range_im_pub d) (_intensity_im_pub d) (_noise_im_pub d) v
    (_pc_pub d) (_reset_srv d) (_metadata_srv d) (_sensor d) (_tf_b d)
    (_process_timer d) (events d).

Definition set_pc_pub (v : option Publisher) (d : Driver) : Driver :=
  mkDriver (overrides d) (parameters d) (lifecycle d) (clock d)
    (_range_im_pub d) (_intensity_im_pub d) (_noise_im_pub d) (_imu_pub d)
    v (_reset_srv d) (_metadata_srv d) (_sensor d) (_tf_b d)
    (_process_timer d) (events d).

Definition set_reset_srv (v : option Service) (d : Driver) : Driver :=
  mkDriver (overrides d) (parameters d) (lifecycle d) (clock d)
    (_range_im_pub d) (_intensity_im_pub d) (_noise_im_pub d) (_imu_pub d)
    (_pc_pub d) v (_metadata_srv d) (_sensor d) (_tf_b d)
    (_process_timer d) (events d).

Definition set_metadata_srv (v : option Service) (d : Driver) : Driver :=
  mkDriver (overrides d) (parameters d) (lifecycle d) (clock d)
    (_range_im_pub d) (_intensity_im_pub d) (_noise_im_pub d) (_imu_pub d)
    (_pc_pub d) (_reset_srv d) v (_sensor d) (_tf_b d)
    (_process_timer d) (events d).

Definition set_sensor (v : option SensorInterface) (d : Driver) : Driver :=
  mkDriver (overrides d) (parameters d) (lifecycle d) (clock d)
    (_range_im_pub d) (_intensity_im_pub d) (_noise_im_pub d) (_imu_pub d)
    (_pc_pub d) (_reset_srv d) (_metadata_srv d) v (_tf_b d)
    (_process_timer d) (events d).

Definition set_tf_b (v : option StaticTransformBroadcaster) (d : Driver) : Driver :=
  mkDriver (overrides d) (parameters d) (lifecycle d) (clock d)
    (_range_im_pub d) (_intensity_im_pub d) (_noise_im_pub d) (_imu_pub d)
    (_pc_pub d) (_reset_srv d) (_metadata_srv d) (_sensor d) v
    (_process_timer d) (events d).

Definition set_process_timer (v : option Timer) (d : Driver) : Driver :=
  mkDriver (overrides d) (parameters d) (lifecycle d) (clock d)
    (_range_im_pub d) (_intensity_im_pub d) (_noise_im_pub d) (_imu_pub d)
    (_pc_pub d) (_reset_srv d) (_metadata_srv d) (_sensor d) (_tf_b d)
    v (events d).

Definition set_events (v : list Event) (d : Driver) : Driver :=
  mkDriver (overrides d) (parameters d) (lifecycle d) (clock d)
    (_range_im_pub d) (_intensity_im_pub d) (_noise_im_pub d) (_imu_pub d)
    (_pc_pub d) (_reset_srv d) (_metadata_srv d) (_sensor d) (_tf_b d)
    (_process_timer d) v.

(** ** The monad of member functions *)

Inductive Outcome (A : Type) : Type :=
| Returned (a : A)
| Raised (e : Exception)
| Exited (code : Z)
| NullDereference.

Arguments Returned {A} a.
Arguments Raised {A} e.
Arguments Exited {A} code.
Arguments NullDereference {A}.

Definition M (A : Type) : Type := Driver -> Outcome A * Driver.

Definition ret {A} (a : A) : M A := fun d => (Returned a, d).

Definition bind {A B} (m : M A) (k : A -> M B) : M B :=
  fun d =>
    match m d with
    | (Returned a, d') => k a d'
    | (Raised e, d') => (Raised e, d')
    | (Exited c, d') => (Exited c, d')
    | (NullDereference, d') => (NullDereference, d')
    end.

Declare Scope driver_scope.
Delimit Scope driver_scope with driver.
Bind Scope driver_scope with M.

Notation "'do' x <- m ; k" := (bind m (fun x => k))
  (at level 10, x name, m at level 100, k at level 200) : driver_scope.

Open Scope driver_scope.

Definition raise {A} (e : Exception) : M A := fun d => (Raised e, d).

(** [exit(code)]: the process ends, nothing after it runs. *)
Definition exit {A} (code : Z) : M A := fun d => (Exited code, d).

(** [try { body } catch (...) { handler }]. *)
Definition try_catch {A} (body handler : M A) : M A :=
  fun d =>
    match body d with
    | (Raised _, d') => handler d'
    | r => r
    end.

Definition this : M Driver := fun d => (Returned d, d).

Definition update (f : Driver -> Driver) : M unit := fun d => (Returned tt, f d).

(** [p->...] on a smart pointer: undefined when [p] holds nothing. *)
Definition deref {A} (p : Driver -> option A) : M A :=
  fun d =>
    match p d with
    | Some a => (Returned a, d)
    | None => (NullDereference, d)
    end.

Definition emit (e : Event) : M unit :=
  update (fun d => set_events (events d ++ [e])%list d).

(** ** The node framework, as the driver calls it

    The framework (rclcpp and its lifecycle node) is not part of the
    repository.  Its parameter store is a finite map from names to values;
    the operations below follow the calls the driver makes. *)

(** [Parameter::as_string()] and [Parameter::as_int()]. *)
Definition as_string (v : ParameterValue) : M string :=
  match v with
  | PString s => ret s
  | _ => raise (ParameterTypeException "string")
  end.

Definition as_int (v : ParameterValue) : M Z :=
  match v with
  | PInteger i => ret i
  | _ => raise (ParameterTypeException "integer")
  end.

(** [get_parameter(name)]: only a declared parameter can be read. *)
Definition get_parameter (name : string) : M ParameterValue :=
  do d <- this;
  match parameters d !! name with
  | Some v => ret v
  | None => raise (ParameterNotDeclaredException name)
  end.

(** [s.c_str()] as a [%s] conversion of the logging macros prints it: the
    characters of [s] before its first NUL. *)
Fixpoint c_str (s : string) : string :=
  match s with
  | EmptyString => EmptyString
  | String c rest =>
      if Ascii.eqb c Ascii.zero then EmptyString else String c (c_str rest)
  end.

Definition RCLCPP_INFO (message : string) : M unit := emit (Log INFO message).
Definition RCLCPP_FATAL (message : string) : M unit := emit (Log FATAL message).

(** [this->now()]: reads the clock field.  The model has one reading per
    node state, so two calls within one member function return the same
    value, while the program's clock may move between them; statements
    about a node in general therefore leave the stamps of the announced
    transforms open. *)
Definition now : M Z := do d <- this; ret (clock d).

(** [create_publisher<T>(topic, qos)]: a lifecycle publisher starts
    disarmed. *)
Definition create_publisher (name : string) : M (option Publisher) :=
  ret (Some {| topic := name; enabled := false |}).

Definition create_service (name : string) (h : Handler) : M (option Service) :=
  ret (Some {| service_name := name; handler := h |}).

Definition create_wall_timer (period : Z) (cb : Callback) : M (option Timer) :=
  ret (Some {| period_ns := period; callback := cb |}).

(** [pub->on_activate()] and [pub->on_deactivate()] through one of the five
    publisher members: the pointer is dereferenced, the object it points to
    is switched. *)
Definition on_activate (member : Driver -> option Publisher)
    (assign : option Publisher -> Driver -> Driver) : M unit :=
  do p <- deref member;
  update (assign (Some {| topic := topic p; enabled := true |})).

Definition on_deactivate (member : Driver -> option Publisher)
    (assign : option Publisher -> Driver -> Driver) : M unit :=
  do p <- deref member;
  update (assign (Some {| topic := topic p; enabled := false |})).

(** [_tf_b->sendTransform(transforms)]. *)
Definition sendTransform (transforms : list TransformStamped) : M unit :=
  do _ <- deref _tf_b;
  emit (SendTransform transforms).

(** [isActive()].  Modelled from the spec: it is declared in the lifecycle
    interface header, outside the sources; it holds exactly in the Active
    lifecycle state. *)
Definition isActive (d : Driver) : bool := bool_decide (lifecycle d = Active).

(** The node object before the body of the driver's constructor runs:
    nothing declared, no member set. *)
Definition LifecycleInterface (parameter_overrides : gmap string ParameterValue)
    (time : Z) : Driver :=
  mkDriver parameter_overrides ∅ Unconfigured time
    None None None None None None None None None None [].

Section OusterDriver.

(** What the framework does when a parameter is declared with neither a
    default value nor an override: it raises, or it declares the parameter
    with the value it returns.  The driver's constructor relies on this
    behaviour and the sources do not fix it. *)
Variable valueless_declaration : string -> Exception + ParameterValue.

(** The sensor on the network: the metadata a handshake with the given
    configuration yields, or the error it fails with. *)
Variable handshake : Configuration -> Exception + Metadata.

(** [declare_parameter(name)] and [declare_parameter(name, default_value)]:
    a name is declared once; an override given at start-up takes precedence
    over the default value. *)
Definition declare_parameter (name : string) (default_value : option ParameterValue)
  : M unit :=
  do d <- this;
  match parameters d !! name with
  | Some _ => raise (ParameterAlreadyDeclaredException name)
  | None =>
      match overrides d !! name, default_value with
      | Some v, _ => update (set_parameters (<[name := v]> (parameters d)))
      | None, Some v => update (set_parameters (<[name := v]> (parameters d)))
      | None, None =>
          match valueless_declaration name with
          | inl e => raise e
          | inr v => update (set_parameters (<[name := v]> (parameters d)))
          end
      end
  end.

(** Modelled from the spec: [SensorInterface::configure] and
    [SensorInterface::reset] are outside the sources.  Both run the
    handshake with the sensor; a failed handshake raises and leaves the
    handle as it was, a completed one replaces connection and metadata. *)
Definition sensor_connect (config : Configuration) : M unit :=
  do _ <- deref _sensor;
  do _ <- emit (Handshake config);
  match handshake config with
  | inl e => raise e
  | inr m =>
      update (set_sensor (Some {| connection := Some config; sensor_metadata := m |}))
  end.

Definition sensor_configure : Configuration -> M unit := sensor_connect.
Definition sensor_reset : Configuration -> M unit := sensor_connect.

(** [_sensor->getMetadata()]. *)
Definition sensor_getMetadata : M Metadata :=
  do s <- deref _sensor;
  ret (sensor_metadata s).

(** ** The driver *)

(** The constructor, lines 33-52. *)
Definition OusterDriver : M unit :=
  do _ <- try_catch
    (do _ <- declare_parameter "lidar_ip" None;
     declare_parameter "computer_ip" None)
    (do _ <- RCLCPP_FATAL
       ("Failed to get lidar or IMU IP address or "
        +:+ "hostname. An IP address for both are required!");
     exit (-1));
  do _ <- declare_parameter "imu_port" (Some (PInteger 7503));
  do _ <- declare_parameter "lidar_port" (Some (PInteger 7502));
  do _ <- declare_parameter "lidar_mode" (Some (PString "512x10"));
  do _ <- declare_parameter "sensor_frame" (Some (PString "laser_sensor_frame"));
  do _ <- declare_parameter "laser_frame" (Some (PString "laser_data_frame"));
  declare_parameter "imu_frame" (Some (PString "imu_data_frame")).

(** Lines 136-151. *)
Definition broadcastStaticTransforms : M unit :=
  do laser_sensor_frame <- (do v <- get_parameter "laser_sensor_frame"; as_string v);
  do laser_data_frame <- (do v <- get_parameter "laser_data_frame"; as_string v);
  do imu_data_frame <- (do v <- get_parameter "imu_data_frame"; as_string v);
  do d <- this;
  match _tf_b d with
  | Some _ =>
      do mdata <- sensor_getMetadata;
      do t1 <- now;
      let imu := toMsg (imu_to_sensor_transform mdata)
                   laser_sensor_frame imu_data_frame t1 in
      do t2 <- now;
      let lidar := toMsg (lidar_to_sensor_transform mdata)
                     laser_sensor_frame laser_data_frame t2 in
      sendTransform [imu; lidar]
  | None => ret tt
  end.

(** Lines 58-92. *)
Definition onConfigure : M unit :=
  do ip <- (do v <- get_parameter "lidar_ip"; as_string v);
  do computer <- (do v <- get_parameter "computer_ip"; as_string v);
  do imu <- (do v <- get_parameter "imu_port"; as_int v);
  do lidar <- (do v <- get_parameter "lidar_port"; as_int v);
  do mode <- (do v <- get_parameter "lidar_mode"; as_string v);
  let lidar_config :=
    {| lidar_ip := ip; computer_ip := computer; imu_port := imu;
       lidar_port := lidar; lidar_mode := mode |} in
  do _ <- RCLCPP_INFO
    ("Connecting to sensor at " +:+ c_str (lidar_ip lidar_config) +:+ ".");
  do _ <- RCLCPP_INFO
    ("Broadcasting data from sensor to " +:+ c_str (computer_ip lidar_config) +:+ ".");
  do p <- create_publisher "range_image"; do _ <- update (set_range_im_pub p);
  do p <- create_publisher "intensity_image"; do _ <- update (set_intensity_im_pub p);
  do p <- create_publisher "noise_image"; do _ <- update (set_noise_im_pub p);
  do p <- create_publisher "imu"; do _ <- update (set_imu_pub p);
  do p <- create_publisher "points"; do _ <- update (set_pc_pub p);
  do s <- create_service "reset" HandleReset; do _ <- update (set_reset_srv s);
  do s <- create_service "get_metadata" HandleGetMetadata;
  do _ <- update (set_metadata_srv s);
  do _ <- update (set_sensor (Some OS1Sensor));
  do _ <- sensor_configure lidar_config;
  do _ <- update (set_tf_b (Some TransformBroadcaster));
  broadcastStaticTransforms.

(** Lines 153-164: the body is only comments. *)
Definition processData : M unit := ret tt.

(** Lines 94-105. *)
Definition onActivate : M unit :=
  do _ <- on_activate _range_im_pub set_range_im_pub;
  do _ <- on_activate _intensity_im_pub set_intensity_im_pub;
  do _ <- on_activate _noise_im_pub set_noise_im_pub;
  do _ <- on_activate _pc_pub set_pc_pub;
  do _ <- on_activate _imu_pub set_imu_pub;
  do t <- create_wall_timer 781250 CallProcessData;
  update (set_process_timer t).

(** Lines 107-109. *)
Definition onError : M unit := ret tt.

(** Lines 111-119. *)
Definition onDeactivate : M unit :=
  do _ <- on_deactivate _range_im_pub set_range_im_pub;
  do _ <- on_deactivate _intensity_im_pub set_intensity_im_pub;
  do _ <- on_deactivate _noise_im_pub set_noise_im_pub;
  do _ <- on_deactivate _pc_pub set_pc_pub;
  do _ <- on_deactivate _imu_pub set_imu_pub;
  update (set_process_timer None).

(** Lines 121-130. *)
Definition onCleanup : M unit :=
  do _ <- update (set_range_im_pub None);
  do _ <- update (set_intensity_im_pub None);
  do _ <- update (set_noise_im_pub None);
  do _ <- update (set_pc_pub None);
  do _ <- update (set_imu_pub None);
  do _ <- update (set_sensor None);
  update (set_tf_b None).

(** Lines 132-134. *)
Definition onShutdown : M unit := ret tt.

(** Lines 166-183.  The response object is passed in and handed back, so
    that a write to it would show. *)
Definition resetService (response : EmptyResponse) : M EmptyResponse :=
  do d <- this;
  if negb (isActive d) then ret response
  else
    do ip <- (do v <- get_parameter "lidar_ip"; as_string v);
    do computer <- (do v <- get_parameter "computer_ip"; as_string v);
    do imu <- (do v <- get_parameter "imu_port"; as_int v);
    do lidar <- (do v <- get_parameter "lidar_port"; as_int v);
    do mode <- (do v <- get_parameter "lidar_mode"; as_string v);
    let lidar_config :=
      {| lidar_ip := ip; computer_ip := computer; imu_port := imu;
         lidar_port := lidar; lidar_mode := mode |} in
    do _ <- sensor_reset lidar_config;
    ret response.

(** Lines 185-195. *)
Definition getMetadata (response : GetMetadataResponse) : M GetMetadataResponse :=
  do d <- this;
  if negb (isActive d) then ret response
  else
    do m <- sensor_getMetadata;
    ret {| metadata := toMsg_metadata m |}.

(** ** Running the node *)

(** One expiry of the wall timer: the callback bound in [onActivate] runs
    if the timer exists. *)
Definition timer_expires : M unit :=
  do d <- this;
  match _process_timer d with
  | Some t => match callback t with CallProcessData => processData end
  | None => ret tt
  end.

Fixpoint cycles (n : nat) : M unit :=
  match n with
  | O => ret tt
  | S k => do _ <- timer_expires; cycles k
  end.

(** [n] direct invocations of [processData], one after the other. *)
Fixpoint invocations (n : nat) : M unit :=
  match n with
  | O => ret tt
  | S k => do _ <- processData; invocations k
  end.

Inductive Transition : Type :=
| Configure | Activate | Deactivate | Cleanup | Shutdown.

(** Modelled from the spec: the lifecycle state machine is the framework's
    (and the lifecycle interface header's), outside the sources.  The table
    is the one of section 4.4: configure Unconfigured->Inactive, activate
    Inactive->Active, deactivate Active->Inactive, cleanup
    Inactive->Unconfigured, shutdown any->Finalized. *)
Definition transition_target (s : LifecycleState) (t : Transition)
  : option LifecycleState :=
  match t, s with
  | Configure, Unconfigured => Some Inactive
  | Activate, Inactive => Some Active
  | Deactivate, Active => Some Inactive
  | Cleanup, Inactive => Some Unconfigured
  | Shutdown, _ => Some Finalized
  | _, _ => None
  end.

Definition transition_callback (t : Transition) : M unit :=
  match t with
  | Configure => onConfigure
  | Activate => onActivate
  | Deactivate => onDeactivate
  | Cleanup => onCleanup
  | Shutdown => onShutdown
  end.

(** Modelled from the spec: a requested transition that the table does not
    allow is refused; an allowed one runs the driver's callback and moves to
    the target state, or to ErrorProcessing (after [onError]) when the
    callback raises.  The result says whether the transition was made. *)
Definition trigger (t : Transition) : M bool :=
  fun d =>
    match transition_target (lifecycle d) t with
    | None => (Returned false, d)
    | Some s =>
        match transition_callback t d with
        | (Returned _, d') => (Returned true, set_lifecycle s d')
        | (Raised _, d') =>
            (do _ <- onError;
             do _ <- update (set_lifecycle ErrorProcessing);
             ret false) d'
        | (Exited c, d') => (Exited c, d')
        | (NullDereference, d') => (NullDereference, d')
        end
    end.

End OusterDriver.

(** The resources the lifecycle hands out at configure time. *)
Definition resources (d : Driver) :=
  (_range_im_pub d, _intensity_im_pub d, _noise_im_pub d, _imu_pub d,
   _pc_pub d, _sensor d, _tf_b d).

Definition disarmed (p : Publisher) : Publisher :=
  {| topic := topic p; enabled := false |}.

Definition armed (p : Publisher) : Publisher :=
  {| topic := topic p; enabled := true |}.



(** ** Concrete nodes used as instances *)

(** A framework that raises on a declaration without value, and one that
    declares the parameter as not set. *)
Definition strict_declaration (name : string) : Exception + ParameterValue :=
  inl (ParameterValueMissing name).

Definition lenient_declaration (name : string) : Exception + ParameterValue :=
  inr PNotSet.

Definition example_metadata : Metadata :=
  {| lidar_to_sensor_transform := [-1; 0; 0; 0; 0; -1; 0; 0; 0; 0; 1; 36; 0; 0; 0; 1];
     imu_to_sensor_transform := [1; 0; 0; 6; 0; 1; 0; -11; 0; 0; 1; 7; 0; 0; 0; 1];
     metadata_lidar_mode := "512x10" |}.

Definition example_sensor (config : Configuration) : Exception + Metadata :=
  inr example_metadata.

(** Started with both addresses and nothing else. *)
Definition example_overrides : gmap string ParameterValue :=
  <["lidar_ip" := PString "10.5.5.86"]>
    (<["computer_ip" := PString "10.5.5.1"]> ∅).

Definition example_config : Configuration :=
  {| lidar_ip := "10.5.5.86"; computer_ip := "10.5.5.1"; imu_port := 7503;
     lidar_port := 7502; lidar_mode := "512x10" |}.

(** The node after its constructor ran with [example_overrides]. *)
Definition constructed : Driver :=
  snd (OusterDriver strict_declaration (LifecycleInterface example_overrides 0)).

(** The same node where the three frame parameters were overridden at
    start-up, and where the names that [broadcastStaticTransforms] reads
    have been declared as well. *)
Definition renamed_overrides : gmap string ParameterValue :=
  <["sensor_frame" := PString "os1_sensor"]>
    (<["laser_frame" := PString "os1_lidar"]>
       (<["imu_frame" := PString "os1_imu"]> example_overrides)).

Definition with_extra_parameters (d : Driver) : Driver :=
  set_parameters
    (<["laser_sensor_frame" := PString "a"]>
       (<["laser_data_frame" := PString "b"]>
          (<["imu_data_frame" := PString "c"]> (parameters d)))) d.

Definition constructed_renamed : Driver :=
  with_extra_parameters
    (snd (OusterDriver strict_declaration (LifecycleInterface renamed_overrides 0))).

(** [constructed] after the configure transition was requested: the
    callback raised, the node is in ErrorProcessing. *)
Definition after_failed_configure : Driver :=
  snd (trigger example_sensor Configure constructed).

(** [constructed_renamed] after the configure transition: Inactive. *)
Definition configured_example : Driver :=
  snd (trigger example_sensor Configure constructed_renamed).

(** [configured_example] after the activate transition: Active. *)
Definition activated_example : Driver :=
  snd (trigger example_sensor Activate configured_example).

(** A node started with no address at all, on the framework that declares
    a parameter without value as not set. *)
Definition lenient_node : Driver :=
  snd (OusterDriver lenient_declaration (LifecycleInterface ∅ 0)).

(** ** Every way into the driver

    The framework calls the transition callbacks, the timer calls
    [processData], clients call the two services; the helper
    [broadcastStaticTransforms] is a member function like the others. *)
Inductive Member : Type :=
| DoConfigure
| DoActivate
| DoError
| DoDeactivate
| DoCleanup
| DoShutdown
| DoBroadcastStaticTransforms
| DoProcessData
| DoResetService (response : EmptyResponse)
| DoGetMetadata (response : GetMetadataResponse).

Definition call (handshake : Configuration -> Exception + Metadata)
    (m : Member) : M unit :=
  match m with
  | DoConfigure => onConfigure handshake
  | DoActivate => onActivate
  | DoError => onError
  | DoDeactivate => onDeactivate
  | DoCleanup => onCleanup
  | DoShutdown => onShutdown
  | DoBroadcastStaticTransforms => broadcastStaticTransforms
  | DoProcessData => processData
  | DoResetService r => do _ <- resetService handshake r; ret tt
  | DoGetMetadata r => do _ <- getMetadata r; ret tt
  end.

(** After a normal return or an exception the node object lives on; after
    [exit] or a null dereference it does not. *)
Definition survives {A} (o : Outcome A) : bool :=
  match o with
  | Returned _ | Raised _ => true
  | Exited _ | NullDereference => false
  end.

Definition set_clock (v : Z) (d : Driver) : Driver :=
  mkDriver (overrides d) (parameters d) (lifecycle d) v
    (_range_im_pub d) (_intensity_im_pub d) (_noise_im_pub d) (_imu_pub d)
    (_pc_pub d) (_reset_srv d) (_metadata_srv d) (_sensor d) (_tf_b d)
    (_process_timer d) (events d).

(** The states a node can be in: it was constructed, and then member
    functions were called in any order, with the framework free to report
    any lifecycle state and any time in between. *)
Inductive reachable
    (valueless_declaration : string -> Exception + ParameterValue)
    (handshake : Configuration -> Exception + Metadata) : Driver -> Prop :=
| reachable_constructed options time d :
    OusterDriver valueless_declaration (LifecycleInterface options time)
    = (Returned tt, d) ->
    reachable valueless_declaration handshake d
| reachable_lifecycle d s :
    reachable valueless_declaration handshake d ->
    reachable valueless_declaration handshake (set_lifecycle s d)
| reachable_clock d t :
    reachable valueless_declaration handshake d ->
    reachable valueless_declaration handshake (set_clock t d)
| reachable_call d m o d' :
    reachable valueless_declaration handshake d ->
    call handshake m d = (o, d') ->
    survives o = true ->
    reachable valueless_declaration handshake d'.

(** The five publishers exist together or not at all. *)
Definition publishers_together (d : Driver) : Prop :=
  (is_Some (_range_im_pub d) /\ is_Some (_intensity_im_pub d)
   /\ is_Some (_noise_im_pub d) /\ is_Some (_imu_pub d) /\ is_Some (_pc_pub d))
  \/ (_range_im_pub d = None /\ _intensity_im_pub d = None
      /\ _noise_im_pub d = None /\ _imu_pub d = None /\ _pc_pub d = None).

(** The eight names the constructor declares. *)
Definition declared_names : gset string :=
  {[ "lidar_ip"; "computer_ip"; "imu_port"; "lidar_port"; "lidar_mode";
     "sensor_frame"; "laser_frame"; "imu_frame" ]}.

(** An address with an embedded NUL after its second character. *)
Definition nul_address : string :=
  String "1"%char (String "0"%char (String Ascii.zero "x")).

Definition nul_overrides : gmap string ParameterValue :=
  <["lidar_ip" := PString nul_address]>
    (<["computer_ip" := PString "10.5.5.1"]> ∅).

(** A sensor that cannot be reached. *)
Definition unreachable_sensor (config : Configuration) : Exception + Metadata :=
  inl ConnectionError.

(** A sensor that answers with other metadata than [example_sensor]. *)
Definition recalibrated_metadata : Metadata :=
  {| lidar_to_sensor_transform := [-1; 0; 0; 0; 0; -1; 0; 0; 0; 0; 1; 37; 0; 0; 0; 1];
     imu_to_sensor_transform := [1; 0; 0; 6; 0; 1; 0; -12; 0; 0; 1; 7; 0; 0; 0; 1];
     metadata_lidar_mode := "512x10" |}.

Definition recalibrated_sensor (config : Configuration) : Exception + Metadata :=
  inr recalibrated_metadata.

(** The node [d] once lines 67-88 of [onConfigure] have run with the
    configuration [config]: two lines logged, publishers and services
    created, a fresh sensor handle made and its handshake attempted. *)
Definition after_creation (d : Driver) (config : Configuration) : Driver :=
  mkDriver (overrides d) (parameters d) (lifecycle d) (clock d)
    (Some {| topic := "range_image"; enabled := false |})
    (Some {| topic := "intensity_image"; enabled := false |})
    (Some {| topic := "noise_image"; enabled := false |})
    (Some {| topic := "imu"; enabled := false |})
    (Some {| topic := "points"; enabled := false |})
    (Some {| service_name := "reset"; handler := HandleReset |})
    (Some {| service_name := "get_metadata"; handler := HandleGetMetadata |})
    (Some OS1Sensor) (_tf_b d) (_process_timer d)
    (events d
     ++ [Log INFO ("Connecting to sensor at " +:+ c_str (lidar_ip config) +:+ ".");
         Log INFO
           ("Broadcasting data from sensor to " +:+ c_str (computer_ip config) +:+ ".");
         Handshake config])%list.

(** The same node once the handshake has produced [m] and line 90 has
    made the broadcaster. *)
Definition after_handshake (d : Driver) (config : Configuration) (m : Metadata)
  : Driver :=
  set_tf_b (Some TransformBroadcaster)
    (set_sensor (Some {| connection := Some config; sensor_metadata := m |})
       (after_creation d config)).

(** The five connection parameters of [d] have the types that lines 61-65
    and 177-181 read them with, and make up [config]. *)
Definition connection_parameters (d : Driver) (config : Configuration) : Prop :=
  parameters d !! "lidar_ip" = Some (PString (lidar_ip config))
  /\ parameters d !! "computer_ip" = Some (PString (computer_ip config))
  /\ parameters d !! "imu_port" = Some (PInteger (imu_port config))
  /\ parameters d !! "lidar_port" = Some (PInteger (lidar_port config))
  /\ parameters d !! "lidar_mode" = Some (PString (lidar_mode config)).

(** What is kept by every call: the parameters are the eight of the
    constructor, the trace holds no announcement and no publication, and
    the publishers exist together. *)
Definition steady (d : Driver) : Prop :=
  dom (parameters d) = declared_names
  /\ (forall e, In e (events d) ->
        (exists s msg, e = Log s msg) \/ (exists config, e = Handshake config))
  /\ publishers_together d.

(** ** Properties *)

Ltac step1 :=
  unfold bind, ret, update, this, deref, emit, raise, as_string, as_int,
    get_parameter, now, sendTransform in *;
  cbn [fst snd
       _range_im_pub _intensity_im_pub _noise_im_pub _imu_pub _pc_pub
       _reset_srv _metadata_srv _sensor _tf_b _process_timer events
       overrides parameters lifecycle clock
       set_range_im_pub set_intensity_im_pub set_noise_im_pub
       set_imu_pub set_pc_pub set_process_timer set_sensor set_tf_b
       set_events set_parameters set_lifecycle set_reset_srv
       set_metadata_srv] in *.

Ltac step := repeat progress step1.

Ltac run :=
  step;
  repeat match goal with
         | H : ?f ?d = _ |- context [?f ?d] => rewrite H; step
         end.

Ltac same_state :=
  unfold after_handshake, after_creation; step;
  rewrite <- ?app_assoc; reflexivity.

Ltac read_or_stop name :=
  destruct (parameters _ !! name) as [[| ? | ?]|] eqn:?; step;
  try solve [left; eexists; reflexivity].

Ltac read_parameter name H :=
  let E := fresh "E" in
  destruct (parameters _ !! name) as [[| ? | ?]|] eqn:E in H;
  step; try discriminate H.

(** *** The timer callback *)

(** C9. [processData] is a pure no-op: one invocation, and any number of
    invocations in a row, return normally and leave the whole node (every
    member, the lifecycle state and the trace of outside effects, hence no
    publication) exactly as it was. *)
Theorem processData_is_a_noop (n : nat) (d : Driver) :
  processData d = (Returned tt, d) /\ invocations n d = (Returned tt, d).
Proof.
  split; [reflexivity|].
  induction n as [|k IH]; [reflexivity|].
  cbn [invocations]. unfold bind at 1. cbn. exact IH.
Qed.

Lemma timer_expires_noop d : timer_expires d = (Returned tt, d).
Proof.
  unfold timer_expires. step.
  destruct (_process_timer d) as [[period []]|]; reflexivity.
Qed.

Lemma cycles_noop n d : cycles n d = (Returned tt, d).
Proof.
  induction n as [|k IH]; [reflexivity|].
  cbn [cycles]. unfold bind at 1. rewrite timer_expires_noop. exact IH.
Qed.

(** *** Transition callbacks *)

Lemma onActivate_returns (d : Driver) (r i n pc imu : Publisher) :
  _range_im_pub d = Some r ->
  _intensity_im_pub d = Some i ->
  _noise_im_pub d = Some n ->
  _pc_pub d = Some pc ->
  _imu_pub d = Some imu ->
  onActivate d
  = (Returned tt,
     mkDriver (overrides d) (parameters d) (lifecycle d) (clock d)
       (Some (armed r)) (Some (armed i)) (Some (armed n)) (Some (armed imu))
       (Some (armed pc)) (_reset_srv d) (_metadata_srv d) (_sensor d) (_tf_b d)
       (Some {| period_ns := 781250; callback := CallProcessData |}) (events d)).
Proof.
  intros Hr Hi Hn Hpc Himu.
  unfold onActivate, on_activate, create_wall_timer. run. reflexivity.
Qed.

Lemma onDeactivate_returns (d : Driver) (r i n pc imu : Publisher) :
  _range_im_pub d = Some r ->
  _intensity_im_pub d = Some i ->
  _noise_im_pub d = Some n ->
  _pc_pub d = Some pc ->
  _imu_pub d = Some imu ->
  onDeactivate d
  = (Returned tt,
     mkDriver (overrides d) (parameters d) (lifecycle d) (clock d)
       (Some (disarmed r)) (Some (disarmed i)) (Some (disarmed n))
       (Some (disarmed imu)) (Some (disarmed pc))
       (_reset_srv d) (_metadata_srv d) (_sensor d) (_tf_b d)
       None (events d)).
Proof.
  intros Hr Hi Hn Hpc Himu.
  unfold onDeactivate, on_deactivate. run. reflexivity.
Qed.

(** Before [onConfigure] has created the publishers, [onActivate] stops at
    its first line on a pointer that holds nothing. *)
Lemma onActivate_before_configure (d : Driver) :
  _range_im_pub d = None -> onActivate d = (NullDereference, d).
Proof. intros H. unfold onActivate, on_activate. run. reflexivity. Qed.

(** C4. With the five publishers created, [onActivate] returns normally;
    afterwards each of the five publishers is armed and the timer exists,
    calls [processData] and has a period of 781250 ns, of which exactly
    1280 make one second (10^9 ns). *)
Theorem onActivate_arms_and_starts_timer (d : Driver) (r i n pc imu : Publisher) :
  _range_im_pub d = Some r ->
  _intensity_im_pub d = Some i ->
  _noise_im_pub d = Some n ->
  _pc_pub d = Some pc ->
  _imu_pub d = Some imu ->
  exists d',
    onActivate d = (Returned tt, d')
    /\ _range_im_pub d' = Some (armed r)
    /\ _intensity_im_pub d' = Some (armed i)
    /\ _noise_im_pub d' = Some (armed n)
    /\ _pc_pub d' = Some (armed pc)
    /\ _imu_pub d' = Some (armed imu)
    /\ _process_timer d'
       = Some {| period_ns := 781250; callback := CallProcessData |}
    /\ forall t, _process_timer d' = Some t -> 1280 * period_ns t = 1000000000.
Proof.
  intros Hr Hi Hn Hpc Himu. eexists.
  split; [apply (onActivate_returns d r i n pc imu); assumption|].
  cbn. repeat split; try reflexivity.
  intros t Ht. inversion Ht. reflexivity.
Qed.

(** C5. With the five publishers created, [onDeactivate] returns normally;
    afterwards each of the five publishers is disarmed and there is no
    timer, while the sensor handle (its connection and its metadata) and
    every remaining field (broadcaster, services, parameters, lifecycle
    state, trace) are the ones it started with. *)
Theorem onDeactivate_keeps_sensor (d : Driver) (r i n pc imu : Publisher) :
  _range_im_pub d = Some r ->
  _intensity_im_pub d = Some i ->
  _noise_im_pub d = Some n ->
  _pc_pub d = Some pc ->
  _imu_pub d = Some imu ->
  exists d',
    onDeactivate d = (Returned tt, d')
    /\ _range_im_pub d' = Some (disarmed r)
    /\ _intensity_im_pub d' = Some (disarmed i)
    /\ _noise_im_pub d' = Some (disarmed n)
    /\ _pc_pub d' = Some (disarmed pc)
    /\ _imu_pub d' = Some (disarmed imu)
    /\ _process_timer d' = None
    /\ _sensor d' = _sensor d
    /\ sensor_getMetadata d' = (fst (sensor_getMetadata d), d')
    /\ (_tf_b d', _reset_srv d', _metadata_srv d') = (_tf_b d, _reset_srv d, _metadata_srv d)
    /\ (overrides d', parameters d', lifecycle d', clock d', events d')
       = (overrides d, parameters d, lifecycle d, clock d, events d).
Proof.
  intros Hr Hi Hn Hpc Himu. eexists.
  split; [apply (onDeactivate_returns d r i n pc imu); assumption|].
  cbn. repeat split; try reflexivity.
  unfold sensor_getMetadata. step. destruct (_sensor d); reflexivity.
Qed.

(** C6. [onCleanup] always returns normally and releases the five
    publishers, the sensor handle (and with it the metadata it holds) and
    the transform broadcaster: these resources are again those of a node
    that was never configured.  The record spells out what is kept: the two
    service handles, the timer, the parameters. *)
Theorem onCleanup_releases (d : Driver) :
  onCleanup d
  = (Returned tt,
     mkDriver (overrides d) (parameters d) (lifecycle d) (clock d)
       None None None None None (_reset_srv d) (_metadata_srv d) None None
       (_process_timer d) (events d))
  /\ forall o t, resources (snd (onCleanup d)) = resources (LifecycleInterface o t).
Proof. split; reflexivity. Qed.

(** *** Services *)

(** C1. Outside the Active state both service handlers return normally,
    hand back the response they were given and leave the node as it was:
    no member changes and no event (in particular no handshake) is added. *)
Theorem services_ignore_calls_unless_active
    (handshake : Configuration -> Exception + Metadata) (d : Driver)
    (empty : EmptyResponse) (response : GetMetadataResponse) :
  lifecycle d <> Active ->
  resetService handshake empty d = (Returned empty, d)
  /\ getMetadata response d = (Returned response, d).
Proof.
  intros H.
  assert (Hactive : isActive d = false)
    by (unfold isActive; apply bool_decide_eq_false; exact H).
  unfold resetService, getMetadata. step.
  rewrite Hactive. split; reflexivity.
Qed.

(** *** The static transforms *)

(** C10. Without a transform broadcaster [broadcastStaticTransforms] sends
    nothing and dereferences nothing: it returns normally, or raises while
    reading the frame parameters, and in both cases the node, trace
    included, is as before. *)
Theorem broadcast_needs_a_broadcaster (d : Driver) :
  _tf_b d = None ->
  snd (broadcastStaticTransforms d) = d
  /\ (fst (broadcastStaticTransforms d) = Returned tt
      \/ exists e, fst (broadcastStaticTransforms d) = Raised e).
Proof.
  intros H. unfold broadcastStaticTransforms, get_parameter.
  destruct (parameters d !! "laser_sensor_frame") as [[| |]|] eqn:E1;
  destruct (parameters d !! "laser_data_frame") as [[| |]|] eqn:E2;
  destruct (parameters d !! "imu_data_frame") as [[| |]|] eqn:E3;
  run;
  (split; [reflexivity | first [left; reflexivity | right; eexists; reflexivity]]).
Qed.

(** C7. From a configured node, activation, any number [k] of timer
    expiries and deactivation all return normally; the trace of outside
    effects after activation and [j] expiries, for every [j], and after
    deactivation is the one before activation, so nothing was published;
    the node ends with its sensor handle untouched, publishers disarmed and
    no timer. *)
Theorem activate_deactivate_publishes_nothing
    (d : Driver) (k : nat) (r i n pc imu : Publisher) :
  _range_im_pub d = Some r ->
  _intensity_im_pub d = Some i ->
  _noise_im_pub d = Some n ->
  _pc_pub d = Some pc ->
  _imu_pub d = Some imu ->
  (do _ <- onActivate; do _ <- cycles k; onDeactivate) d
  = (Returned tt,
     mkDriver (overrides d) (parameters d) (lifecycle d) (clock d)
       (Some (disarmed r)) (Some (disarmed i)) (Some (disarmed n))
       (Some (disarmed imu)) (Some (disarmed pc))
       (_reset_srv d) (_metadata_srv d) (_sensor d) (_tf_b d)
       None (events d))
  /\ forall j, exists d1,
       (do _ <- onActivate; cycles j) d = (Returned tt, d1)
       /\ events d1 = events d /\ _sensor d1 = _sensor d.
Proof.
  intros Hr Hi Hn Hpc Himu.
  pose proof (onActivate_returns d r i n pc imu Hr Hi Hn Hpc Himu) as Hact.
  split.
  - unfold bind at 1. rewrite Hact.
    unfold bind at 1. rewrite cycles_noop.
    erewrite onDeactivate_returns by reflexivity. reflexivity.
  - intros j. eexists. unfold bind at 1. rewrite Hact.
    rewrite cycles_noop. repeat split; reflexivity.
Qed.

(** *** The constructor *)

Lemma declare_parameter_fresh vd name dv d :
  parameters d !! name = None ->
  declare_parameter vd name dv d
  = match overrides d !! name, dv with
    | Some v, _ | None, Some v =>
        (Returned tt, set_parameters (<[name := v]> (parameters d)) d)
    | None, None =>
        match vd name with
        | inl e => (Raised e, d)
        | inr v => (Returned tt, set_parameters (<[name := v]> (parameters d)) d)
        end
    end.
Proof.
  intros H. unfold declare_parameter. run.
  destruct (overrides d !! name), dv; try reflexivity.
  destruct (vd name); reflexivity.
Qed.


Lemma declare_parameter_default vd name v0 d :
  parameters d !! name = None ->
  declare_parameter vd name (Some v0) d
  = (Returned tt,
     set_parameters (<[name := default v0 (overrides d !! name)]> (parameters d)) d).
Proof.
  intros H. rewrite declare_parameter_fresh by exact H.
  destruct (overrides d !! name); reflexivity.
Qed.

Lemma bind_returned_inv {A B} (m : M A) (k : A -> M B) d b d2 :
  bind m k d = (Returned b, d2) ->
  exists a d1, m d = (Returned a, d1) /\ k a d1 = (Returned b, d2).
Proof.
  unfold bind. destruct (m d) as [[a| | |] d1]; intros H; try discriminate H.
  exists a, d1. split; [reflexivity | exact H].
Qed.

Lemma try_catch_returned_inv {A} (body handler : M A) d a d1 :
  try_catch body handler d = (Returned a, d1) ->
  body d = (Returned a, d1)
  \/ exists e d0, body d = (Raised e, d0) /\ handler d0 = (Returned a, d1).
Proof.
  unfold try_catch. destruct (body d) as [[a0|e| |] d0]; intros H;
    try discriminate H.
  - left. exact H.
  - right. exists e, d0. split; [reflexivity | exact H].
Qed.

Lemma declare_parameter_returned_inv vd name dv d d' :
  declare_parameter vd name dv d = (Returned tt, d') ->
  exists v, d' = set_parameters (<[name := v]> (parameters d)) d.
Proof.
  unfold declare_parameter. step.
  destruct (parameters d !! name); [discriminate|].
  destruct (overrides d !! name) as [v|], dv as [v0|];
    try (intros H; inversion H; eexists; reflexivity).
  destruct (vd name) as [e|v]; [discriminate|].
  intros H; inversion H; eexists; reflexivity.
Qed.

(** A constructor that returns has declared exactly the eight names of
    lines 37-51, and has set no member and produced no outside effect. *)
Lemma OusterDriver_returns vd options time d :
  OusterDriver vd (LifecycleInterface options time) = (Returned tt, d) ->
  exists ip computer,
    d = set_parameters
          (<["imu_frame" := default (PString "imu_data_frame") (options !! "imu_frame")]>
          (<["laser_frame" := default (PString "laser_data_frame") (options !! "laser_frame")]>
          (<["sensor_frame" := default (PString "laser_sensor_frame") (options !! "sensor_frame")]>
          (<["lidar_mode" := default (PString "512x10") (options !! "lidar_mode")]>
          (<["lidar_port" := default (PInteger 7502) (options !! "lidar_port")]>
          (<["imu_port" := default (PInteger 7503) (options !! "imu_port")]>
          (<["computer_ip" := computer]>
          (<["lidar_ip" := ip]> ∅))))))))
          (LifecycleInterface options time).
Proof.
  unfold OusterDriver. intros H.
  apply bind_returned_inv in H as ([] & d2 & Htry & H).
  apply try_catch_returned_inv in Htry as [Hbody | (e & d0 & _ & Hhandler)];
    [|discriminate Hhandler].
  apply bind_returned_inv in Hbody as ([] & d1 & Hlidar & Hcomputer).
  apply declare_parameter_returned_inv in Hlidar as [ip ->].
  apply declare_parameter_returned_inv in Hcomputer as [computer ->].
  exists ip, computer.
  repeat (unfold bind at 1 in H;
          rewrite declare_parameter_default in H by reflexivity).
  rewrite declare_parameter_default in H by reflexivity.
  inversion H. reflexivity.
Qed.

Lemma OusterDriver_leaves_frames_undeclared vd options time d :
  OusterDriver vd (LifecycleInterface options time) = (Returned tt, d) ->
  parameters d !! "laser_sensor_frame" = None
  /\ parameters d !! "laser_data_frame" = None
  /\ parameters d !! "imu_data_frame" = None.
Proof.
  intros H. apply OusterDriver_returns in H as (ip & computer & ->).
  repeat split; reflexivity.
Qed.

(** *** Configuration *)

(** What a completed [onConfigure] has done: it read the five connection
    parameters and the three parameters named laser_sensor_frame,
    laser_data_frame and imu_data_frame, the handshake with that
    configuration succeeded, and the trace grew by two log lines, the
    handshake and one announcement of two transforms. *)
Lemma onConfigure_returns hs d d' :
  onConfigure hs d = (Returned tt, d') ->
  exists ip computer imu lidar mode m sensor_f laser_f imu_f,
    let config :=
      {| lidar_ip := ip; computer_ip := computer; imu_port := imu;
         lidar_port := lidar; lidar_mode := mode |} in
    parameters d !! "lidar_ip" = Some (PString ip)
    /\ parameters d !! "computer_ip" = Some (PString computer)
    /\ parameters d !! "imu_port" = Some (PInteger imu)
    /\ parameters d !! "lidar_port" = Some (PInteger lidar)
    /\ parameters d !! "lidar_mode" = Some (PString mode)
    /\ hs config = inr m
    /\ parameters d !! "laser_sensor_frame" = Some (PString sensor_f)
    /\ parameters d !! "laser_data_frame" = Some (PString laser_f)
    /\ parameters d !! "imu_data_frame" = Some (PString imu_f)
    /\ events d'
       = (events d
          ++ [Log INFO ("Connecting to sensor at " +:+ c_str ip +:+ ".");
              Log INFO ("Broadcasting data from sensor to " +:+ c_str computer +:+ ".");
              Handshake config;
              SendTransform
                [toMsg (imu_to_sensor_transform m) sensor_f imu_f (clock d);
                 toMsg (lidar_to_sensor_transform m) sensor_f laser_f (clock d)]])%list
    /\ _sensor d' = Some {| connection := Some config; sensor_metadata := m |}.
Proof.
  intros H.
  unfold onConfigure, broadcastStaticTransforms, sensor_configure,
    sensor_connect, sensor_getMetadata, RCLCPP_INFO, create_publisher,
    create_service in H.
  step.
  read_parameter "lidar_ip" H.
  read_parameter "computer_ip" H.
  read_parameter "imu_port" H.
  read_parameter "lidar_port" H.
  read_parameter "lidar_mode" H.
  match type of H with context [hs ?c] => destruct (hs c) as [e|m] eqn:Ehs end;
    step; [discriminate H|].
  read_parameter "laser_sensor_frame" H.
  read_parameter "laser_data_frame" H.
  read_parameter "imu_data_frame" H.
  inversion H; subst d'; clear H.
  do 9 eexists. cbn zeta.
  repeat (split; [eassumption || reflexivity|]).
  split; [|reflexivity].
  cbn [events]. rewrite <- !app_assoc. reflexivity.
Qed.

(** When the name laser_sensor_frame is not declared, [onConfigure] cannot
    complete: it raises, and whatever it did before, it sent no
    transform. *)
Lemma onConfigure_without_frame_names hs d :
  parameters d !! "laser_sensor_frame" = None ->
  exists e d',
    onConfigure hs d = (Raised e, d')
    /\ forall ts, In (SendTransform ts) (events d') -> In (SendTransform ts) (events d).
Proof.
  intros Hframe.
  unfold onConfigure, broadcastStaticTransforms, sensor_configure,
    sensor_connect, sensor_getMetadata, RCLCPP_INFO, create_publisher,
    create_service.
  step.
  destruct (parameters d !! "lidar_ip") as [[| ? | ?]|]; step;
    try (do 2 eexists; split; [reflexivity | intros ts Hin; exact Hin]).
  destruct (parameters d !! "computer_ip") as [[| ? | ?]|]; step;
    try (do 2 eexists; split; [reflexivity | intros ts Hin; exact Hin]).
  destruct (parameters d !! "imu_port") as [[| ? | ?]|]; step;
    try (do 2 eexists; split; [reflexivity | intros ts Hin; exact Hin]).
  destruct (parameters d !! "lidar_port") as [[| ? | ?]|]; step;
    try (do 2 eexists; split; [reflexivity | intros ts Hin; exact Hin]).
  destruct (parameters d !! "lidar_mode") as [[| ? | ?]|]; step;
    try (do 2 eexists; split; [reflexivity | intros ts Hin; exact Hin]).
  match goal with |- context [hs ?c] => destruct (hs c) as [e|m] end; step;
    try rewrite Hframe; step;
    (do 2 eexists; split; [reflexivity|]);
    intros ts Hin; step;
    rewrite !in_app_iff in Hin; cbn [In] in Hin;
    intuition discriminate.
Qed.

(** Whatever the framework, the start-up options and the sensor: after the
    constructor of this file, [onConfigure] never completes and never
    announces a transform. *)
Lemma onConfigure_after_construction vd hs options time d :
  OusterDriver vd (LifecycleInterface options time) = (Returned tt, d) ->
  exists e d',
    onConfigure hs d = (Raised e, d')
    /\ forall ts, ~ In (SendTransform ts) (events d').
Proof.
  intros H.
  destruct (OusterDriver_leaves_frames_undeclared _ _ _ _ H) as (Hframe & _).
  destruct (onConfigure_without_frame_names hs d Hframe) as (e & d' & Hrun & Hsent).
  exists e, d'. split; [exact Hrun|].
  intros ts Hin. apply Hsent in Hin.
  apply OusterDriver_returns in H as (ip & computer & ->).
  exact Hin.
Qed.

(** C2. The announcement does not use the configured frame identifiers.
    The constructor declares sensor_frame, laser_frame and imu_frame, but
    [broadcastStaticTransforms] reads laser_sensor_frame, laser_data_frame
    and imu_data_frame.  (1) On the node started with both addresses,
    [onConfigure] connects to the sensor and then raises, having announced
    nothing.  (2) On the node where those three names exist as well (values
    a, b, c) and the declared frames were set to os1_sensor, os1_lidar and
    os1_imu, [onConfigure] completes and the single announcement carries the
    two transforms of the handshake's metadata under a, b and c. *)
Theorem configure_announces_under_other_names :
  OusterDriver strict_declaration (LifecycleInterface example_overrides 0)
  = (Returned tt, constructed)
  /\ fst (onConfigure example_sensor constructed)
     = Raised (ParameterNotDeclaredException "laser_sensor_frame")
  /\ events (snd (onConfigure example_sensor constructed))
     = [Log INFO "Connecting to sensor at 10.5.5.86.";
        Log INFO "Broadcasting data from sensor to 10.5.5.1.";
        Handshake example_config]
  /\ parameters constructed_renamed !! "sensor_frame" = Some (PString "os1_sensor")
  /\ parameters constructed_renamed !! "laser_frame" = Some (PString "os1_lidar")
  /\ parameters constructed_renamed !! "imu_frame" = Some (PString "os1_imu")
  /\ fst (onConfigure example_sensor constructed_renamed) = Returned tt
  /\ events (snd (onConfigure example_sensor constructed_renamed))
     = [Log INFO "Connecting to sensor at 10.5.5.86.";
        Log INFO "Broadcasting data from sensor to 10.5.5.1.";
        Handshake example_config;
        SendTransform
          [toMsg (imu_to_sensor_transform example_metadata) "a" "c" 0;
           toMsg (lidar_to_sensor_transform example_metadata) "a" "b" 0]].
Proof. vm_compute. repeat split; reflexivity. Qed.

(** *** Shutdown *)

(** C8, as the code has it.  [onShutdown] returns normally and changes
    nothing, so the shutdown transition only moves the lifecycle state to
    Finalized: every resource held before it is still held after it, every
    resource released before it stays released.  Finalized is terminal: no
    later transition request leaves it. *)
Theorem onShutdown_releases_nothing
    (handshake : Configuration -> Exception + Metadata) (d : Driver) :
  onShutdown d = (Returned tt, d)
  /\ trigger handshake Shutdown d = (Returned true, set_lifecycle Finalized d)
  /\ resources (snd (trigger handshake Shutdown d)) = resources d
  /\ forall t,
       lifecycle (snd (trigger handshake t (set_lifecycle Finalized d))) = Finalized.
Proof.
  split; [reflexivity|].
  assert (Hshutdown : forall d0,
    trigger handshake Shutdown d0 = (Returned true, set_lifecycle Finalized d0)).
  { intros d0. unfold trigger. destruct (lifecycle d0); reflexivity. }
  split; [apply Hshutdown|].
  split; [rewrite Hshutdown; reflexivity|].
  intros [| | | |]; reflexivity.
Qed.

(** C8 fails as stated: the configured (Inactive) node still holds its five
    publishers, its connected sensor with the metadata and its transform
    broadcaster after the shutdown transition has brought it to
    Finalized. *)
Lemma shutdown_keeps_resources_held :
  lifecycle configured_example = Inactive
  /\ lifecycle (snd (trigger example_sensor Shutdown configured_example)) = Finalized
  /\ resources (snd (trigger example_sensor Shutdown configured_example))
     = (Some {| topic := "range_image"; enabled := false |},
        Some {| topic := "intensity_image"; enabled := false |},
        Some {| topic := "noise_image"; enabled := false |},
        Some {| topic := "imu"; enabled := false |},
        Some {| topic := "points"; enabled := false |},
        Some {| connection := Some example_config;
                sensor_metadata := example_metadata |},
        Some TransformBroadcaster).
Proof. vm_compute. repeat split; reflexivity. Qed.

(** *** Instances *)


Lemma services_ignore_calls_unless_active_witness :
  lifecycle configured_example <> Active
  /\ resetService example_sensor Empty configured_example
     = (Returned Empty, configured_example)
  /\ getMetadata {| metadata := toMsg_metadata default_metadata |} configured_example
     = (Returned {| metadata := toMsg_metadata default_metadata |}, configured_example).
Proof.
  assert (H : lifecycle configured_example <> Active) by (vm_compute; discriminate).
  split; [exact H|].
  exact (services_ignore_calls_unless_active example_sensor configured_example
           Empty {| metadata := toMsg_metadata default_metadata |} H).
Defined.


Lemma onActivate_arms_and_starts_timer_witness :
  exists d',
    onActivate configured_example = (Returned tt, d')
    /\ _range_im_pub d' = Some {| topic := "range_image"; enabled := true |}
    /\ _intensity_im_pub d' = Some {| topic := "intensity_image"; enabled := true |}
    /\ _noise_im_pub d' = Some {| topic := "noise_image"; enabled := true |}
    /\ _pc_pub d' = Some {| topic := "points"; enabled := true |}
    /\ _imu_pub d' = Some {| topic := "imu"; enabled := true |}
    /\ _process_timer d'
       = Some {| period_ns := 781250; callback := CallProcessData |}
    /\ forall t, _process_timer d' = Some t -> 1280 * period_ns t = 1000000000.
Proof.
  apply (onActivate_arms_and_starts_timer configured_example
           {| topic := "range_image"; enabled := false |}
           {| topic := "intensity_image"; enabled := false |}
           {| topic := "noise_image"; enabled := false |}
           {| topic := "points"; enabled := false |}
           {| topic := "imu"; enabled := false |});
    vm_compute; reflexivity.
Defined.

Lemma onDeactivate_keeps_sensor_witness :
  exists d',
    onDeactivate activated_example = (Returned tt, d')
    /\ _range_im_pub d' = Some {| topic := "range_image"; enabled := false |}
    /\ _intensity_im_pub d' = Some {| topic := "intensity_image"; enabled := false |}
    /\ _noise_im_pub d' = Some {| topic := "noise_image"; enabled := false |}
    /\ _pc_pub d' = Some {| topic := "points"; enabled := false |}
    /\ _imu_pub d' = Some {| topic := "imu"; enabled := false |}
    /\ _process_timer d' = None
    /\ _sensor d' = _sensor activated_example
    /\ sensor_getMetadata d' = (fst (sensor_getMetadata activated_example), d')
    /\ (_tf_b d', _reset_srv d', _metadata_srv d')
       = (_tf_b activated_example, _reset_srv activated_example,
          _metadata_srv activated_example)
    /\ (overrides d', parameters d', lifecycle d', clock d', events d')
       = (overrides activated_example, parameters activated_example,
          lifecycle activated_example, clock activated_example,
          events activated_example).
Proof.
  apply (onDeactivate_keeps_sensor activated_example
           {| topic := "range_image"; enabled := true |}
           {| topic := "intensity_image"; enabled := true |}
           {| topic := "noise_image"; enabled := true |}
           {| topic := "points"; enabled := true |}
           {| topic := "imu"; enabled := true |});
    vm_compute; reflexivity.
Defined.

Lemma activate_deactivate_publishes_nothing_witness :
  let d := configured_example in
  let r := {| topic := "range_image"; enabled := false |} in
  let i := {| topic := "intensity_image"; enabled := false |} in
  let n := {| topic := "noise_image"; enabled := false |} in
  let pc := {| topic := "points"; enabled := false |} in
  let imu := {| topic := "imu"; enabled := false |} in
  (do _ <- onActivate; do _ <- cycles 1280; onDeactivate) d
  = (Returned tt,
     mkDriver (overrides d) (parameters d) (lifecycle d) (clock d)
       (Some (disarmed r)) (Some (disarmed i)) (Some (disarmed n))
       (Some (disarmed imu)) (Some (disarmed pc))
       (_reset_srv d) (_metadata_srv d) (_sensor d) (_tf_b d)
       None (events d))
  /\ forall j, exists d1,
       (do _ <- onActivate; cycles j) d = (Returned tt, d1)
       /\ events d1 = events d /\ _sensor d1 = _sensor d.
Proof.
  intros d r i n pc imu.
  apply (activate_deactivate_publishes_nothing d 1280 r i n pc imu);
    vm_compute; reflexivity.
Defined.

Lemma broadcast_needs_a_broadcaster_witness :
  _tf_b (snd (onCleanup configured_example)) = None
  /\ snd (broadcastStaticTransforms (snd (onCleanup configured_example)))
     = snd (onCleanup configured_example)
  /\ (fst (broadcastStaticTransforms (snd (onCleanup configured_example)))
      = Returned tt
      \/ exists e,
           fst (broadcastStaticTransforms (snd (onCleanup configured_example)))
           = Raised e).
Proof.
  split; [reflexivity|].
  apply (broadcast_needs_a_broadcaster (snd (onCleanup configured_example))).
  reflexivity.
Defined.

(** ** Further properties of the member functions *)

(** *** The constructor *)

Lemma bind_returned {A B} (m : M A) (k : A -> M B) d a d1 :
  m d = (Returned a, d1) -> bind m k d = k a d1.
Proof. intros H. unfold bind. rewrite H. reflexivity. Qed.







(** *** Configuration, in full *)

(** The four ways [onConfigure] can end. *)
Lemma onConfigure_outcomes hs d :
  (exists e, onConfigure hs d = (Raised e, d))
  \/ (exists config e,
        connection_parameters d config /\ hs config = inl e
        /\ onConfigure hs d = (Raised e, after_creation d config))
  \/ (exists config m e,
        connection_parameters d config /\ hs config = inr m
        /\ onConfigure hs d = (Raised e, after_handshake d config m)
        /\ ~ (exists a b c,
                parameters d !! "laser_sensor_frame" = Some (PString a)
                /\ parameters d !! "laser_data_frame" = Some (PString b)
                /\ parameters d !! "imu_data_frame" = Some (PString c)))
  \/ (exists config m a b c,
        connection_parameters d config /\ hs config = inr m
        /\ parameters d !! "laser_sensor_frame" = Some (PString a)
        /\ parameters d !! "laser_data_frame" = Some (PString b)
        /\ parameters d !! "imu_data_frame" = Some (PString c)
        /\ onConfigure hs d
           = (Returned tt,
              set_events
                (events (after_handshake d config m)
                 ++ [SendTransform
                       [toMsg (imu_to_sensor_transform m) a c (clock d);
                        toMsg (lidar_to_sensor_transform m) a b (clock d)]])%list
                (after_handshake d config m))).
Proof.
  unfold onConfigure, broadcastStaticTransforms, sensor_configure,
    sensor_connect, sensor_getMetadata, RCLCPP_INFO, create_publisher,
    create_service.
  step.
  read_or_stop "lidar_ip".
  read_or_stop "computer_ip".
  read_or_stop "imu_port".
  read_or_stop "lidar_port".
  read_or_stop "lidar_mode".
  right.
  match goal with |- context [hs ?c] => set (config := c) end.
  assert (Hconfig : connection_parameters d config) by (repeat split; assumption).
  destruct (hs config) as [e|m] eqn:Ehs; step.
  { left. exists config, e. repeat split; try assumption. same_state. }
  right.
  destruct (parameters d !! "laser_sensor_frame") as [[| a | ?]|] eqn:Ea; step;
    try solve [left; exists config, m; eexists;
               repeat split; try assumption; [same_state |];
               intros (? & ? & ? & ? & ? & ?); congruence].
  destruct (parameters d !! "laser_data_frame") as [[| b | ?]|] eqn:Eb; step;
    try solve [left; exists config, m; eexists;
               repeat split; try assumption; [same_state |];
               intros (? & ? & ? & ? & ? & ?); congruence].
  destruct (parameters d !! "imu_data_frame") as [[| c | ?]|] eqn:Ec; step;
    try solve [left; exists config, m; eexists;
               repeat split; try assumption; [same_state |];
               intros (? & ? & ? & ? & ? & ?); congruence].
  right. exists config, m, a, b, c. repeat split; try assumption.
  same_state.
Qed.

(** With everything it reads in place, the model of [onConfigure] ends in
    this state; both stamps are the one reading the model has. *)
Lemma onConfigure_run
    (handshake : Configuration -> Exception + Metadata) (d : Driver)
    (config : Configuration) (m : Metadata) (a b c : string) :
  connection_parameters d config ->
  handshake config = inr m ->
  parameters d !! "laser_sensor_frame" = Some (PString a) ->
  parameters d !! "laser_data_frame" = Some (PString b) ->
  parameters d !! "imu_data_frame" = Some (PString c) ->
  onConfigure handshake d
  = (Returned tt,
     set_events
       (events (after_handshake d config m)
        ++ [SendTransform
              [toMsg (imu_to_sensor_transform m) a c (clock d);
               toMsg (lidar_to_sensor_transform m) a b (clock d)]])%list
       (after_handshake d config m)).
Proof.
  intros (Hip & Hcomputer & Himu & Hlidar & Hmode) Hhs Ha Hb Hc.
  destruct config as [ip computer imu lidar mode].
  cbn [lidar_ip computer_ip imu_port lidar_port lidar_mode] in *.
  unfold onConfigure, broadcastStaticTransforms, sensor_configure,
    sensor_connect, sensor_getMetadata, RCLCPP_INFO, create_publisher,
    create_service.
  run. same_state.
Qed.

(** X3. With good connection parameters, a handshake that succeeds and
    the three parameters laser_sensor_frame, laser_data_frame and
    imu_data_frame declared as strings, [onConfigure] returns normally.
    The node then holds the five disarmed publishers, the two services, the
    connected sensor handle and the broadcaster; timer, parameters and
    lifecycle state are as before; and the trace has grown by the two log
    lines (each address printed up to its first NUL), the handshake and
    exactly one announcement of two transforms: the IMU one first, then the
    lidar one, both under the value of laser_sensor_frame as parent, each
    with a stamp that the statement leaves open. *)
Theorem onConfigure_completes
    (handshake : Configuration -> Exception + Metadata) (d : Driver)
    (config : Configuration) (m : Metadata) (a b c : string) :
  connection_parameters d config ->
  handshake config = inr m ->
  parameters d !! "laser_sensor_frame" = Some (PString a) ->
  parameters d !! "laser_data_frame" = Some (PString b) ->
  parameters d !! "imu_data_frame" = Some (PString c) ->
  exists d' t1 t2,
    onConfigure handshake d = (Returned tt, d')
    /\ resources d'
       = (Some {| topic := "range_image"; enabled := false |},
          Some {| topic := "intensity_image"; enabled := false |},
          Some {| topic := "noise_image"; enabled := false |},
          Some {| topic := "imu"; enabled := false |},
          Some {| topic := "points"; enabled := false |},
          Some {| connection := Some config; sensor_metadata := m |},
          Some TransformBroadcaster)
    /\ (_reset_srv d', _metadata_srv d')
       = (Some {| service_name := "reset"; handler := HandleReset |},
          Some {| service_name := "get_metadata"; handler := HandleGetMetadata |})
    /\ (_process_timer d', parameters d', overrides d', lifecycle d')
       = (_process_timer d, parameters d, overrides d, lifecycle d)
    /\ events d'
       = (events d
          ++ [Log INFO ("Connecting to sensor at " +:+ c_str (lidar_ip config) +:+ ".");
              Log INFO
                ("Broadcasting data from sensor to "
                 +:+ c_str (computer_ip config) +:+ ".");
              Handshake config;
              SendTransform
                [toMsg (imu_to_sensor_transform m) a c t1;
                 toMsg (lidar_to_sensor_transform m) a b t2]])%list.
Proof.
  intros Hconfig Hhs Ha Hb Hc.
  eexists _, (clock d), (clock d).
  split; [apply (onConfigure_run handshake d config m a b c); assumption|].
  cbn. repeat split. rewrite <- app_assoc. reflexivity.
Qed.

Lemma onConfigure_completes_witness :
  exists d' t1 t2,
    onConfigure example_sensor constructed_renamed = (Returned tt, d')
    /\ resources d'
       = (Some {| topic := "range_image"; enabled := false |},
          Some {| topic := "intensity_image"; enabled := false |},
          Some {| topic := "noise_image"; enabled := false |},
          Some {| topic := "imu"; enabled := false |},
          Some {| topic := "points"; enabled := false |},
          Some {| connection := Some example_config;
                  sensor_metadata := example_metadata |},
          Some TransformBroadcaster)
    /\ (_reset_srv d', _metadata_srv d')
       = (Some {| service_name := "reset"; handler := HandleReset |},
          Some {| service_name := "get_metadata"; handler := HandleGetMetadata |})
    /\ (_process_timer d', parameters d', overrides d', lifecycle d')
       = (_process_timer constructed_renamed, parameters constructed_renamed,
          overrides constructed_renamed, lifecycle constructed_renamed)
    /\ events d'
       = (events constructed_renamed
          ++ [Log INFO
                ("Connecting to sensor at " +:+ c_str (lidar_ip example_config) +:+ ".");
              Log INFO
                ("Broadcasting data from sensor to "
                 +:+ c_str (computer_ip example_config) +:+ ".");
              Handshake example_config;
              SendTransform
                [toMsg (imu_to_sensor_transform example_metadata) "a" "c" t1;
                 toMsg (lidar_to_sensor_transform example_metadata) "a" "b" t2]])%list.
Proof.
  apply (onConfigure_completes example_sensor constructed_renamed
           example_config example_metadata "a" "b" "c").
  - vm_compute. repeat split; reflexivity.
  - reflexivity.
  - vm_compute. reflexivity.
  - vm_compute. reflexivity.
  - vm_compute. reflexivity.
Defined.

(** X4. [onConfigure] never ends the process, on any node: it returns or
    raises, and never reaches through a pointer that holds nothing, since
    it makes the sensor handle and the broadcaster before it uses them. *)
Theorem onConfigure_survives
    (handshake : Configuration -> Exception + Metadata) (d : Driver) :
  survives (fst (onConfigure handshake d)) = true.
Proof.
  destruct (onConfigure_outcomes handshake d)
    as [(e & H) | [(config & e & _ & _ & H)
       | [(config & m & e & _ & _ & H & _) | (config & m & a & b & c & _ & _ & _ & _ & _ & H)]]];
    rewrite H; reflexivity.
Qed.

(** X5. [onConfigure] reads the five connection parameters before it
    touches anything: when they are not all declared with the types it
    reads them with, it raises and the node is exactly as before (nothing
    created, nothing logged, no handshake). *)
Theorem onConfigure_checks_parameters_first
    (handshake : Configuration -> Exception + Metadata) (d : Driver) :
  (forall config, ~ connection_parameters d config) ->
  exists e, onConfigure handshake d = (Raised e, d).
Proof.
  intros Hnone.
  destruct (onConfigure_outcomes handshake d)
    as [H | [(config & e & Hc & _) | [(config & m & e & Hc & _)
       | (config & m & a & b & c & Hc & _)]]];
    [exact H | | |]; destruct (Hnone config Hc).
Qed.

Lemma onConfigure_checks_parameters_first_witness :
  exists e, onConfigure example_sensor lenient_node = (Raised e, lenient_node).
Proof.
  apply (onConfigure_checks_parameters_first example_sensor lenient_node).
  intros config (Hip & _). vm_compute in Hip. discriminate Hip.
Defined.

(** X6. [onConfigure] does not undo what it built: when the connection
    parameters are good and the handshake fails, the exception of the
    handshake leaves a node that holds the five disarmed publishers, the
    two services and an unconnected sensor handle, has logged both lines
    (each address printed up to its first NUL, while the handshake was
    attempted with the whole strings), and has no new broadcaster. *)
Theorem onConfigure_keeps_what_it_built
    (handshake : Configuration -> Exception + Metadata) (d : Driver)
    (config : Configuration) (e : Exception) :
  connection_parameters d config ->
  handshake config = inl e ->
  onConfigure handshake d = (Raised e, after_creation d config).
Proof.
  intros (Hip & Hcomputer & Himu & Hlidar & Hmode) Hhs.
  destruct config as [ip computer imu lidar mode].
  cbn [lidar_ip computer_ip imu_port lidar_port lidar_mode] in *.
  unfold onConfigure, sensor_configure, sensor_connect, RCLCPP_INFO,
    create_publisher, create_service.
  run. same_state.
Qed.

Lemma onConfigure_keeps_what_it_built_witness :
  onConfigure unreachable_sensor constructed
  = (Raised ConnectionError, after_creation constructed example_config).
Proof.
  apply (onConfigure_keeps_what_it_built unreachable_sensor constructed
           example_config ConnectionError).
  - vm_compute. repeat split; reflexivity.
  - reflexivity.
Defined.

(** The log line stops at a NUL inside the address; the configuration handed
    to the sensor keeps the whole string. *)
Lemma log_line_stops_at_nul :
  events
    (snd (onConfigure unreachable_sensor
            (snd (OusterDriver strict_declaration (LifecycleInterface nul_overrides 0)))))
  = [Log INFO "Connecting to sensor at 10.";
     Log INFO "Broadcasting data from sensor to 10.5.5.1.";
     Handshake
       {| lidar_ip := nul_address; computer_ip := "10.5.5.1"; imu_port := 7503;
          lidar_port := 7502; lidar_mode := "512x10" |}].
Proof. vm_compute. reflexivity. Qed.

(** *** The services in the Active state *)

Lemma isActive_true d : lifecycle d = Active -> isActive d = true.
Proof. intros H. unfold isActive. apply bool_decide_eq_true. exact H. Qed.

(** X7. In the Active state, with good connection parameters and a sensor
    handle, [resetService] attempts exactly one handshake, with the
    configuration read from the current parameters.  When it succeeds the
    handle carries that configuration and the new metadata and the response
    is handed back; when it fails its exception escapes and the handle is
    the old one.  Either way publishers, timer, broadcaster and lifecycle
    state are untouched and no transform is announced again. *)
Theorem resetService_rehandshakes
    (handshake : Configuration -> Exception + Metadata) (d : Driver)
    (config : Configuration) (s : SensorInterface) (response : EmptyResponse) :
  lifecycle d = Active ->
  connection_parameters d config ->
  _sensor d = Some s ->
  resetService handshake response d
  = match handshake config with
    | inr m =>
        (Returned response,
         set_sensor (Some {| connection := Some config; sensor_metadata := m |})
           (set_events (events d ++ [Handshake config])%list d))
    | inl e => (Raised e, set_events (events d ++ [Handshake config])%list d)
    end.
Proof.
  intros Hactive (Hip & Hcomputer & Himu & Hlidar & Hmode) Hsensor.
  apply isActive_true in Hactive.
  destruct config as [ip computer imu lidar mode].
  cbn [lidar_ip computer_ip imu_port lidar_port lidar_mode] in *.
  unfold resetService, sensor_reset, sensor_connect.
  run. cbn [negb]. run. cbv zeta.
  match goal with |- context [handshake ?c] => destruct (handshake c) end;
    run; reflexivity.
Qed.

Lemma resetService_rehandshakes_witness :
  resetService recalibrated_sensor Empty activated_example
  = match recalibrated_sensor example_config with
    | inr m =>
        (Returned Empty,
         set_sensor (Some {| connection := Some example_config; sensor_metadata := m |})
           (set_events (events activated_example ++ [Handshake example_config])%list
              activated_example))
    | inl e =>
        (Raised e,
         set_events (events activated_example ++ [Handshake example_config])%list
           activated_example)
    end.
Proof.
  apply (resetService_rehandshakes recalibrated_sensor activated_example
           example_config
           {| connection := Some example_config; sensor_metadata := example_metadata |}
           Empty).
  - vm_compute. reflexivity.
  - vm_compute. repeat split; reflexivity.
  - vm_compute. reflexivity.
Defined.

(** X8. In the Active state [getMetadata], called after [resetService],
    answers with the metadata of the most recent handshake that completed:
    the one of this reset when it succeeded, the one the handle had before
    when it failed. *)
Theorem getMetadata_after_reset
    (handshake : Configuration -> Exception + Metadata) (d : Driver)
    (config : Configuration) (s : SensorInterface)
    (empty : EmptyResponse) (response : GetMetadataResponse) :
  lifecycle d = Active ->
  connection_parameters d config ->
  _sensor d = Some s ->
  getMetadata response (snd (resetService handshake empty d))
  = (Returned
       {| metadata :=
            toMsg_metadata
              match handshake config with
              | inr m => m
              | inl _ => sensor_metadata s
              end |},
     snd (resetService handshake empty d)).
Proof.
  intros Hactive (Hip & Hcomputer & Himu & Hlidar & Hmode) Hsensor.
  apply isActive_true in Hactive.
  destruct config as [ip computer imu lidar mode].
  cbn [lidar_ip computer_ip imu_port lidar_port lidar_mode] in *.
  unfold resetService, getMetadata, sensor_reset, sensor_connect,
    sensor_getMetadata, isActive in *.
  run. cbn [negb]. run. cbv zeta.
  match goal with |- context [handshake ?c] => destruct (handshake c) end;
    run; cbn [negb]; run; reflexivity.
Qed.

Lemma getMetadata_after_reset_witness :
  getMetadata {| metadata := toMsg_metadata default_metadata |}
    (snd (resetService recalibrated_sensor Empty activated_example))
  = (Returned
       {| metadata :=
            toMsg_metadata
              match recalibrated_sensor example_config with
              | inr m => m
              | inl _ =>
                  sensor_metadata
                    {| connection := Some example_config;
                       sensor_metadata := example_metadata |}
              end |},
     snd (resetService recalibrated_sensor Empty activated_example)).
Proof.
  apply (getMetadata_after_reset recalibrated_sensor activated_example
           example_config
           {| connection := Some example_config; sensor_metadata := example_metadata |}
           Empty {| metadata := toMsg_metadata default_metadata |}).
  - vm_compute. reflexivity.
  - vm_compute. repeat split; reflexivity.
  - vm_compute. reflexivity.
Defined.

(** X9. [getMetadata] is read-only in every state and never raises: the
    node after the call is the node before it, and the call returns or, in
    the Active state without a sensor handle, dereferences nothing. *)
Theorem getMetadata_is_read_only (response : GetMetadataResponse) (d : Driver) :
  snd (getMetadata response d) = d
  /\ (forall e, fst (getMetadata response d) <> Raised e)
  /\ (fst (getMetadata response d) = NullDereference
      <-> lifecycle d = Active /\ _sensor d = None).
Proof.
  unfold getMetadata, sensor_getMetadata, isActive. step.
  destruct (bool_decide_reflect (lifecycle d = Active)) as [Hactive|Hactive];
    cbn [negb]; step.
  - destruct (_sensor d) as [s|]; step; repeat split;
      try discriminate; try tauto; intros []; discriminate.
  - repeat split; try discriminate; tauto.
Qed.

(** *** Activation and release *)

(** X10. On a configured node at rest (publishers disarmed, no timer)
    activating and then deactivating is a round trip: the node is exactly
    the one before. *)
Theorem activate_deactivate_round_trip (d : Driver) (r i n pc imu : Publisher) :
  _range_im_pub d = Some r ->
  _intensity_im_pub d = Some i ->
  _noise_im_pub d = Some n ->
  _pc_pub d = Some pc ->
  _imu_pub d = Some imu ->
  (enabled r, enabled i, enabled n, enabled pc, enabled imu)
  = (false, false, false, false, false) ->
  _process_timer d = None ->
  (do _ <- onActivate; onDeactivate) d = (Returned tt, d).
Proof.
  intros Hr Hi Hn Hpc Himu Hoff Htimer.
  rewrite (bind_returned _ _ _ _ _ (onActivate_returns d r i n pc imu Hr Hi Hn Hpc Himu)).
  erewrite onDeactivate_returns by reflexivity.
  destruct d, r, i, n, pc, imu. cbn in *.
  inversion Hoff. subst. reflexivity.
Qed.

Lemma activate_deactivate_round_trip_witness :
  (do _ <- onActivate; onDeactivate) configured_example
  = (Returned tt, configured_example).
Proof.
  apply (activate_deactivate_round_trip configured_example
           {| topic := "range_image"; enabled := false |}
           {| topic := "intensity_image"; enabled := false |}
           {| topic := "noise_image"; enabled := false |}
           {| topic := "points"; enabled := false |}
           {| topic := "imu"; enabled := false |});
    vm_compute; reflexivity.
Defined.

Lemma onDeactivate_before_configure (d : Driver) :
  _range_im_pub d = None -> onDeactivate d = (NullDereference, d).
Proof. intros H. unfold onDeactivate, on_deactivate. run. reflexivity. Qed.

(** X11. Releasing twice is harmless, but a released node must not be
    activated, deactivated or asked for metadata: on the node that
    [onCleanup] leaves, a second [onCleanup] changes nothing, while
    [onActivate] and [onDeactivate] stop at their first line on a null
    pointer, and so does [getMetadata] if the node is reported Active. *)
Theorem released_node_is_unusable (d : Driver) (response : GetMetadataResponse) :
  let released := snd (onCleanup d) in
  onCleanup released = (Returned tt, released)
  /\ onActivate released = (NullDereference, released)
  /\ onDeactivate released = (NullDereference, released)
  /\ getMetadata response (set_lifecycle Active released)
     = (NullDereference, set_lifecycle Active released).
Proof.
  cbv zeta. split; [reflexivity|].
  split; [apply onActivate_before_configure; reflexivity|].
  split; [apply onDeactivate_before_configure; reflexivity|].
  reflexivity.
Qed.

(** *** What holds in every state the node can reach *)

(** Every way [resetService] can end, on any node. *)
Lemma resetService_outcomes hs response d :
  (exists o, resetService hs response d = (o, d) /\ forall code, o <> Exited code)
  \/ (exists config e,
        resetService hs response d
        = (Raised e, set_events (events d ++ [Handshake config])%list d))
  \/ (exists config m,
        resetService hs response d
        = (Returned response,
           set_sensor (Some {| connection := Some config; sensor_metadata := m |})
             (set_events (events d ++ [Handshake config])%list d))).
Proof.
  unfold resetService, sensor_reset, sensor_connect. step.
  destruct (isActive d); cbn [negb]; step; [|left; eexists; split; [reflexivity | discriminate]].
  destruct (parameters d !! "lidar_ip") as [[| ? | ?]|]; step;
    try solve [left; eexists; split; [reflexivity | discriminate]].
  destruct (parameters d !! "computer_ip") as [[| ? | ?]|]; step;
    try solve [left; eexists; split; [reflexivity | discriminate]].
  destruct (parameters d !! "imu_port") as [[| ? | ?]|]; step;
    try solve [left; eexists; split; [reflexivity | discriminate]].
  destruct (parameters d !! "lidar_port") as [[| ? | ?]|]; step;
    try solve [left; eexists; split; [reflexivity | discriminate]].
  destruct (parameters d !! "lidar_mode") as [[| ? | ?]|]; step;
    try solve [left; eexists; split; [reflexivity | discriminate]].
  destruct (_sensor d) as [handle|]; step; [|left; eexists; split; [reflexivity | discriminate]].
  right. cbv zeta.
  match goal with |- context [hs ?c] => destruct (hs c) as [e|m] end; step.
  - left. do 2 eexists. reflexivity.
  - right. do 2 eexists. reflexivity.
Qed.

Lemma onActivate_together d :
  publishers_together d ->
  onActivate d = (NullDereference, d)
  \/ exists r i n pc imu,
       onActivate d
       = (Returned tt,
          mkDriver (overrides d) (parameters d) (lifecycle d) (clock d)
            (Some (armed r)) (Some (armed i)) (Some (armed n)) (Some (armed imu))
            (Some (armed pc)) (_reset_srv d) (_metadata_srv d) (_sensor d) (_tf_b d)
            (Some {| period_ns := 781250; callback := CallProcessData |}) (events d)).
Proof.
  intros [([r Hr] & [i Hi] & [n Hn] & [imu Himu] & [pc Hpc]) | (Hr & _)].
  - right. exists r, i, n, pc, imu. apply onActivate_returns; assumption.
  - left. apply onActivate_before_configure. exact Hr.
Qed.

Lemma onDeactivate_together d :
  publishers_together d ->
  onDeactivate d = (NullDereference, d)
  \/ exists r i n pc imu,
       onDeactivate d
       = (Returned tt,
          mkDriver (overrides d) (parameters d) (lifecycle d) (clock d)
            (Some (disarmed r)) (Some (disarmed i)) (Some (disarmed n))
            (Some (disarmed imu)) (Some (disarmed pc))
            (_reset_srv d) (_metadata_srv d) (_sensor d) (_tf_b d)
            None (events d)).
Proof.
  intros [([r Hr] & [i Hi] & [n Hn] & [imu Himu] & [pc Hpc]) | (Hr & _)].
  - right. exists r, i, n, pc, imu. apply onDeactivate_returns; assumption.
  - left. apply onDeactivate_before_configure. exact Hr.
Qed.

Lemma steady_frames_undeclared d :
  steady d -> parameters d !! "laser_sensor_frame" = None.
Proof.
  intros (Hdom & _). apply not_elem_of_dom. rewrite Hdom.
  apply (bool_decide_unpack _). vm_compute. reflexivity.
Qed.

Lemma steady_events d l :
  steady d ->
  (forall e, In e l ->
     (exists s msg, e = Log s msg) \/ (exists config, e = Handshake config)) ->
  forall e, In e (events d ++ l) ->
    (exists s msg, e = Log s msg) \/ (exists config, e = Handshake config).
Proof.
  intros (_ & Hev & _) Hl e Hin. apply in_app_iff in Hin as [Hin|Hin]; auto.
Qed.

Lemma broadcast_without_frame_names d :
  parameters d !! "laser_sensor_frame" = None ->
  broadcastStaticTransforms d
  = (Raised (ParameterNotDeclaredException "laser_sensor_frame"), d).
Proof. intros H. unfold broadcastStaticTransforms. run. reflexivity. Qed.

Lemma call_keeps_steady hs m d :
  steady d -> steady (snd (call hs m d)).
Proof.
  intros Hsteady.
  pose proof (steady_frames_undeclared d Hsteady) as Hframe.
  pose proof Hsteady as (Hdom & Hev & Hpubs).
  destruct m; cbn [call].
  - destruct (onConfigure_outcomes hs d)
      as [(e & H) | [(config & e & _ & _ & H)
         | [(config & m & e & _ & _ & H & _)
           | (config & m & a & b & c & _ & _ & Ha & _)]]];
      [rewrite H; exact Hsteady | rewrite H | rewrite H | congruence].
    + split; [exact Hdom|]. split.
      * apply (steady_events d _ Hsteady).
        intros e0 [<-|[<-|[<-|[]]]]; eauto.
      * left. cbn. repeat split; eexists; reflexivity.
    + split; [exact Hdom|]. split.
      * apply (steady_events d _ Hsteady).
        intros e0 [<-|[<-|[<-|[]]]]; eauto.
      * left. cbn. repeat split; eexists; reflexivity.
  - destruct (onActivate_together d Hpubs) as [H | (r & i & n & pc & imu & H)];
      rewrite H; [exact Hsteady|].
    split; [exact Hdom|]. split; [exact Hev|].
    left. cbn. repeat split; eexists; reflexivity.
  - exact Hsteady.
  - destruct (onDeactivate_together d Hpubs) as [H | (r & i & n & pc & imu & H)];
      rewrite H; [exact Hsteady|].
    split; [exact Hdom|]. split; [exact Hev|].
    left. cbn. repeat split; eexists; reflexivity.
  - split; [exact Hdom|]. split; [exact Hev|].
    right. cbn. repeat split; reflexivity.
  - exact Hsteady.
  - rewrite (broadcast_without_frame_names d Hframe). exact Hsteady.
  - exact Hsteady.
  - destruct (resetService_outcomes hs response d)
      as [(o & H & _) | [(config & e & H) | (config & m & H)]];
      unfold bind; rewrite H.
    + destruct o; exact Hsteady.
    + split; [exact Hdom|]. split; [|exact Hpubs].
      apply (steady_events d _ Hsteady). intros e0 [<-|[]]; eauto.
    + split; [exact Hdom|]. split; [|exact Hpubs].
      apply (steady_events d _ Hsteady). intros e0 [<-|[]]; eauto.
  - unfold bind. destruct (getMetadata response d) as [o d'] eqn:H.
    assert (d' = d) as ->.
    { pose proof (f_equal snd H) as H'. cbn [snd] in H'. rewrite <- H'.
      unfold getMetadata, sensor_getMetadata. step.
      destruct (isActive d); cbn [negb]; step; [|reflexivity].
      destruct (_sensor d); reflexivity. }
    destruct o; exact Hsteady.
Qed.

Lemma reachable_steady vd hs d : reachable vd hs d -> steady d.
Proof.
  induction 1 as [options time d H | d st _ IH | d t _ IH | d m o d' _ IH Hcall _].
  - apply OusterDriver_returns in H as (ip & computer & ->).
    split; [|split].
    + cbn [parameters set_parameters].
      rewrite !dom_insert_L, dom_empty_L. unfold declared_names. set_solver.
    + intros e [].
    + right. cbn. repeat split; reflexivity.
  - exact IH.
  - exact IH.
  - pose proof (call_keeps_steady hs m d IH) as Hstep.
    rewrite Hcall in Hstep. exact Hstep.
Qed.

(** X12. In every state the node can reach after its constructor, by
    calls of its member functions in any order and under any lifecycle
    state: the declared parameters are still the eight of the constructor,
    the trace holds only log lines and handshakes (no static transform was
    announced, nothing was published), and [onConfigure] raises. *)
Theorem driver_never_announces
    (valueless_declaration : string -> Exception + ParameterValue)
    (handshake : Configuration -> Exception + Metadata) (d : Driver) :
  reachable valueless_declaration handshake d ->
  dom (parameters d) = declared_names
  /\ (forall ts, ~ In (SendTransform ts) (events d))
  /\ (forall t, ~ In (Publish t) (events d))
  /\ exists e d', onConfigure handshake d = (Raised e, d').
Proof.
  intros Hreach. apply reachable_steady in Hreach.
  pose proof (steady_frames_undeclared d Hreach) as Hframe.
  destruct Hreach as (Hdom & Hev & _).
  split; [exact Hdom|].
  split; [|split].
  - intros ts Hin. destruct (Hev _ Hin) as [(s & msg & H) | (config & H)];
      discriminate H.
  - intros t Hin. destruct (Hev _ Hin) as [(s & msg & H) | (config & H)];
      discriminate H.
  - destruct (onConfigure_outcomes handshake d)
      as [(e & H) | [(config & e & _ & _ & H)
         | [(config & m & e & _ & _ & H & _)
           | (config & m & a & b & c & _ & _ & Ha & _)]]];
      [eauto | eauto | eauto | congruence].
Qed.

Lemma driver_never_announces_witness :
  let d := snd (call example_sensor DoConfigure constructed) in
  dom (parameters d) = declared_names
  /\ (forall ts, ~ In (SendTransform ts) (events d))
  /\ (forall t, ~ In (Publish t) (events d))
  /\ exists e d', onConfigure example_sensor d = (Raised e, d').
Proof.
  intros d.
  apply (driver_never_announces strict_declaration example_sensor d).
  apply (reachable_call strict_declaration example_sensor constructed DoConfigure
           (fst (call example_sensor DoConfigure constructed)) d).
  - apply (reachable_constructed strict_declaration example_sensor example_overrides 0).
    vm_compute. reflexivity.
  - apply surjective_pairing.
  - vm_compute. reflexivity.
Defined.

(** X13. In every state the node can reach, the five publishers exist
    together or not at all; hence [onActivate] and [onDeactivate] either
    switch all five (and set or drop the timer) or stop at their first line
    with the node unchanged: no reachable node has some publishers armed
    and others not created. *)
Theorem activation_is_all_or_nothing
    (valueless_declaration : string -> Exception + ParameterValue)
    (handshake : Configuration -> Exception + Metadata) (d : Driver) :
  reachable valueless_declaration handshake d ->
  publishers_together d
  /\ (onActivate d = (NullDereference, d)
      \/ exists r i n pc imu,
           onActivate d
           = (Returned tt,
              mkDriver (overrides d) (parameters d) (lifecycle d) (clock d)
                (Some (armed r)) (Some (armed i)) (Some (armed n))
                (Some (armed imu)) (Some (armed pc))
                (_reset_srv d) (_metadata_srv d) (_sensor d) (_tf_b d)
                (Some {| period_ns := 781250; callback := CallProcessData |})
                (events d)))
  /\ (onDeactivate d = (NullDereference, d)
      \/ exists r i n pc imu,
           onDeactivate d
           = (Returned tt,
              mkDriver (overrides d) (parameters d) (lifecycle d) (clock d)
                (Some (disarmed r)) (Some (disarmed i)) (Some (disarmed n))
                (Some (disarmed imu)) (Some (disarmed pc))
                (_reset_srv d) (_metadata_srv d) (_sensor d) (_tf_b d)
                None (events d))).
Proof.
  intros Hreach. apply reachable_steady in Hreach as (_ & _ & Hpubs).
  split; [exact Hpubs|].
  split; [apply onActivate_together | apply onDeactivate_together]; exact Hpubs.
Qed.

Lemma activation_is_all_or_nothing_witness :
  let d := snd (call unreachable_sensor DoConfigure constructed) in
  publishers_together d
  /\ (onActivate d = (NullDereference, d)
      \/ exists r i n pc imu,
           onActivate d
           = (Returned tt,
              mkDriver (overrides d) (parameters d) (lifecycle d) (clock d)
                (Some (armed r)) (Some (armed i)) (Some (armed n))
                (Some (armed imu)) (Some (armed pc))
                (_reset_srv d) (_metadata_srv d) (_sensor d) (_tf_b d)
                (Some {| period_ns := 781250; callback := CallProcessData |})
                (events d)))
  /\ (onDeactivate d = (NullDereference, d)
      \/ exists r i n pc imu,
           onDeactivate d
           = (Returned tt,
              mkDriver (overrides d) (parameters d) (lifecycle d) (clock d)
                (Some (disarmed r)) (Some (disarmed i)) (Some (disarmed n))
                (Some (disarmed imu)) (Some (disarmed pc))
                (_reset_srv d) (_metadata_srv d) (_sensor d) (_tf_b d)
                None (events d))).
Proof.
  intros d.
  apply (activation_is_all_or_nothing strict_declaration unreachable_sensor d).
  apply (reachable_call strict_declaration unreachable_sensor constructed DoConfigure
           (fst (call unreachable_sensor DoConfigure constructed)) d).
  - apply (reachable_constructed strict_declaration unreachable_sensor
             example_overrides 0).
    vm_compute. reflexivity.
  - apply surjective_pairing.
  - vm_compute. reflexivity.
Defined.

(** X14. Whatever the state, [resetService] can change only the sensor
    handle and the trace, adds at most one handshake to the trace, and
    replaces the handle only when it returns normally; it never calls
    [exit]. *)
Theorem resetService_changes_only_the_sensor
    (handshake : Configuration -> Exception + Metadata)
    (response : EmptyResponse) (d : Driver) :
  set_sensor (_sensor d)
    (set_events (events d) (snd (resetService handshake response d))) = d
  /\ (events (snd (resetService handshake response d)) = events d
      \/ exists config,
           events (snd (resetService handshake response d))
           = (events d ++ [Handshake config])%list)
  /\ (_sensor (snd (resetService handshake response d)) = _sensor d
      \/ fst (resetService handshake response d) = Returned response)
  /\ forall code, fst (resetService handshake response d) <> Exited code.
Proof.
  destruct (resetService_outcomes handshake response d)
    as [(o & H & Ho) | [(config & e & H) | (config & m & H)]]; rewrite H;
    cbn [fst snd]; destruct d; cbn.
  - repeat split; auto.
  - repeat split; eauto; discriminate.
  - repeat split; eauto; discriminate.
Qed.

(** X15. [onCleanup] does not stop the timer.  Called on an activated node
    without [onDeactivate] in between, it returns normally and leaves a
    node without publishers whose timer still exists; [onDeactivate] can
    then no longer drop that timer, since it stops at its first line on a
    null pointer. *)
Theorem cleanup_while_active_keeps_timer (d : Driver) (r i n pc imu : Publisher) :
  _range_im_pub d = Some r ->
  _intensity_im_pub d = Some i ->
  _noise_im_pub d = Some n ->
  _pc_pub d = Some pc ->
  _imu_pub d = Some imu ->
  exists d',
    (do _ <- onActivate; onCleanup) d = (Returned tt, d')
    /\ _process_timer d'
       = Some {| period_ns := 781250; callback := CallProcessData |}
    /\ resources d' = (None, None, None, None, None, None, None)
    /\ onDeactivate d' = (NullDereference, d')
    /\ timer_expires d' = (Returned tt, d').
Proof.
  intros Hr Hi Hn Hpc Himu. eexists.
  rewrite (bind_returned _ _ _ _ _ (onActivate_returns d r i n pc imu Hr Hi Hn Hpc Himu)).
  split; [reflexivity|].
  split; [reflexivity|].
  split; [reflexivity|].
  split; [apply onDeactivate_before_configure; reflexivity|].
  apply timer_expires_noop.
Qed.

Lemma cleanup_while_active_keeps_timer_witness :
  exists d',
    (do _ <- onActivate; onCleanup) configured_example = (Returned tt, d')
    /\ _process_timer d'
       = Some {| period_ns := 781250; callback := CallProcessData |}
    /\ resources d' = (None, None, None, None, None, None, None)
    /\ onDeactivate d' = (NullDereference, d')
    /\ timer_expires d' = (Returned tt, d').
Proof.
  apply (cleanup_while_active_keeps_timer configured_example
           {| topic := "range_image"; enabled := false |}
           {| topic := "intensity_image"; enabled := false |}
           {| topic := "noise_image"; enabled := false |}
           {| topic := "points"; enabled := false |}
           {| topic := "imu"; enabled := false |});
    vm_compute; reflexivity.
Defined.
